(** * Biology Learning API: the content endpoints over a document store

    A shallow embedding of [src/main.py] and [src/schemas.py].

    - Python values that travel through the handlers (strings, integers,
      [None], lists, dicts and the store's [ObjectId]) are the inductive
      type [value]; a Python [dict] is an association list in insertion
      order.
    - The handlers run in a state and exception monad [M] whose state is
      the module-level handle [db] ([None] or a database).  An exception
      leaves the writes made before it in place, as in Python.
    - [try: ... except ...] is [try_except] with the handler of the source.
*)

From Stdlib Require Import ZArith NArith String Ascii DecimalString Lia.
From stdpp Require Import base option list strings gmap fin_maps.

Set Warnings "-register-all".
Local Open Scope string_scope.
Local Open Scope list_scope.
Local Open Scope Z_scope.

(* ===================================================================== *)
(** * Python values *)
(* ===================================================================== *)

Module Py.

(** [VOid n] is a [bson.ObjectId]: twelve bytes, read here as the number
    [n] taken modulo [2^96]. *)
Inductive value : Type :=
  | VNone
  | VStr (s : string)
  | VInt (n : Z)
  | VOid (n : N)
  | VList (l : list value)
  | VDict (d : list (string * value)).

Definition dict : Type := list (string * value).

(** ** dict operations *)

(** [d.get(k)] *)
Fixpoint dict_get (k : string) (d : dict) : option value :=
  match d with
  | [] => None
  | (k', v) :: r => if String.eqb k' k then Some v else dict_get k r
  end.

(** the dict left by [d.pop(k)] *)
Fixpoint dict_pop (k : string) (d : dict) : dict :=
  match d with
  | [] => []
  | (k', v) :: r =>
      if String.eqb k' k then dict_pop k r else (k', v) :: dict_pop k r
  end.

(** the dict left by [d[k] = v]: an existing key keeps its place, a new
    key goes last. *)
Fixpoint dict_set (k : string) (v : value) (d : dict) : dict :=
  match d with
  | [] => [(k, v)]
  | (k', v') :: r =>
      if String.eqb k' k then (k', v) :: r else (k', v') :: dict_set k v r
  end.

(** ** [str] *)

Definition hex_digit (n : N) : ascii :=
  match n with
  | 0 => "0" | 1 => "1" | 2 => "2" | 3 => "3" | 4 => "4" | 5 => "5"
  | 6 => "6" | 7 => "7" | 8 => "8" | 9 => "9" | 10 => "a" | 11 => "b"
  | 12 => "c" | 13 => "d" | 14 => "e" | _ => "f"
  end%N%char.

(** [k] hexadecimal digits of [n], most significant first, written on
    top of [acc]. *)
Fixpoint hex_digits (k : nat) (n : N) (acc : string) : string :=
  match k with
  | O => acc
  | S k' => hex_digits k' (n / 16)%N (String (hex_digit (n mod 16)%N) acc)
  end.

(** [str(ObjectId)]: 24 lower-case hexadecimal digits. *)
Definition str_oid (n : N) : string := hex_digits 24 n "".

(** [str(int)] *)
Definition str_int (n : Z) : string := NilZero.string_of_int (Z.to_int n).

Definition join_comma (parts : list string) : string :=
  match parts with
  | [] => ""
  | p :: r => fold_left (fun acc q => acc +:+ ", " +:+ q) r p
  end.

(** [repr(v)].  String literals are quoted without escaping; the
    handlers only ever apply [str] to an [ObjectId]. *)
Fixpoint repr (v : value) : string :=
  match v with
  | VNone => "None"
  | VStr s => "'" +:+ s +:+ "'"
  | VInt n => str_int n
  | VOid n => "ObjectId('" +:+ str_oid n +:+ "')"
  | VList l => "[" +:+ join_comma (List.map repr l) +:+ "]"
  | VDict d =>
      "{" +:+ join_comma
                (List.map (fun kv => "'" +:+ fst kv +:+ "': " +:+ repr (snd kv)) d)
          +:+ "}"
  end.

(** [str(v)] *)
Definition str (v : value) : string :=
  match v with
  | VStr s => s
  | VOid n => str_oid n
  | _ => repr v
  end.

(** The first [n] characters of a UTF-8 encoded string, [s[:n]]: a byte
    [10xxxxxx] continues the character before it. *)
Definition is_continuation (c : ascii) : bool :=
  (N_of_ascii c / 64 =? 2)%N.

Fixpoint str_prefix (n : nat) (s : string) : string :=
  match s with
  | EmptyString => EmptyString
  | String c r =>
      if is_continuation c then String c (str_prefix n r)
      else match n with
           | O => EmptyString
           | S n' => String c (str_prefix n' r)
           end
  end.

End Py.
Export Py.

(* ===================================================================== *)
(** * Exceptions and the handler monad *)
(* ===================================================================== *)

(** [HTTPException] is the framework's exception; every other exception
    the handlers can meet is [Exception msg], with [str(e) = msg]. *)
Inductive exn : Type :=
  | HTTPException (status_code : Z) (detail : string)
  | Exception (msg : string).

(** [str(e)]; an [HTTPException] prints as its status and detail. *)
Definition str_exn (e : exn) : string :=
  match e with
  | HTTPException c d => str_int c +:+ ": " +:+ d
  | Exception msg => msg
  end.

Inductive outcome (A : Type) : Type :=
  | Ok (a : A)
  | Raise (e : exn).
Arguments Ok {A} a.
Arguments Raise {A} e.

#[global] Instance outcome_ret : MRet outcome := fun A a => Ok a.
#[global] Instance outcome_bind : MBind outcome := fun A B f m =>
  match m with
  | Ok a => f a
  | Raise e => Raise e
  end.

(** A computation over a state [S] that returns or raises; the state
    reached so far survives an exception. *)
Definition M (S A : Type) : Type := S -> outcome A * S.

#[global] Instance M_ret {S} : MRet (M S) := fun A a s => (Ok a, s).
#[global] Instance M_bind {S} : MBind (M S) := fun A B f m s =>
  match m s with
  | (Ok a, s') => f a s'
  | (Raise e, s') => (Raise e, s')
  end.

Definition raise {S A} (e : exn) : M S A := fun s => (Raise e, s).

Definition lift {S A} (o : outcome A) : M S A := fun s => (o, s).

(** [try: body except ...: handler] *)
Definition try_except {S A} (body : M S A) (handler : exn -> M S A) : M S A :=
  fun s =>
    match body s with
    | (Ok a, s') => (Ok a, s')
    | (Raise e, s') => handler e s'
    end.

(** [for x in l: body x] *)
Fixpoint for_each {S A} (l : list A) (body : A -> M S unit) : M S unit :=
  match l with
  | [] => mret tt
  | x :: r => body x ≫= fun _ => for_each r body
  end.

(** The two handler shapes of [main.py]:
    [except Exception as e: raise HTTPException(status_code=500, detail=str(e))],
    alone or after [except HTTPException: raise]. *)
Definition except_Exception {S A} (e : exn) : M S A :=
  raise (HTTPException 500 (str_exn e)).

Definition except_HTTPException_then_Exception {S A} (e : exn) : M S A :=
  match e with
  | HTTPException _ _ => raise e
  | Exception _ => raise (HTTPException 500 (str_exn e))
  end.

(* ===================================================================== *)
(** * The document store *)
(* ===================================================================== *)

(** The module-level handle [db] of [database.py] and the driver behind
    it are not part of [src/]; what the handlers use of them is modelled
    here.

    A database holds, per collection name, the documents in insertion
    order.  [fault = Some msg] is a store whose every round trip raises
    [Exception msg] (a connectivity failure); [db_name = None] is a handle
    without a [name] attribute; [next_oid] is the next identifier the
    store hands out. *)
Record Database : Type := mkDatabase {
  db_name : option string;
  fault : option string;
  colls : gmap string (list dict);
  next_oid : N
}.

(** The value of the global [db]: [None] when no store was configured. *)
Definition Handle : Type := option Database.

(** The documents of collection [name]; a collection nobody wrote to is
    empty. *)
Definition coll (d : Database) (name : string) : list dict :=
  default [] (colls d !! name).

(** An equality filter [{k1: s1, ...}] on string fields. *)
Definition query : Type := list (string * string).

Definition field_is (k s : string) (doc : dict) : bool :=
  match dict_get k doc with
  | Some (VStr s') => String.eqb s' s
  | _ => false
  end.

Definition matches (q : query) (doc : dict) : bool :=
  forallb (fun ks => field_is (fst ks) (snd ks) doc) q.

(** [cursor.limit(n)] of the driver: [0] is no limit, a negative [n]
    asks for one batch of [|n|] documents. *)
Definition cursor_limit (n : Z) (docs : list dict) : list dict :=
  if n =? 0 then docs else take (Z.to_nat (Z.abs n)) docs.

(** The text of the driver's [NotImplementedError]. *)
Definition bool_not_implemented : string :=
  "Database objects do not implement truth value testing or bool(). Please compare with None instead: database is not None".

(** [bool(db)]: [None] is false; the driver's [Database] has no truth
    value and raises [NotImplementedError] when asked for one. *)
Definition db_truthy : M Handle bool := fun db =>
  match db with
  | Some _ => (Raise (Exception bool_not_implemented), db)
  | None => (Ok false, db)
  end.

(** One round trip of a read: [db[name]] raises [TypeError] on [None], a
    faulty store raises its error. *)
Definition round_trip {A} (read : Database -> A) : M Handle A := fun db =>
  match db with
  | None => (Raise (Exception "'NoneType' object is not subscriptable"), db)
  | Some d =>
      match fault d with
      | Some msg => (Raise (Exception msg), db)
      | None => (Ok (read d), db)
      end
  end.

(** [list(db[name].find(q).limit(n))] *)
Definition find (name : string) (q : query) (n : Z) : M Handle (list dict) :=
  round_trip (fun d => cursor_limit n (List.filter (matches q) (coll d name))).

(** [db[name].find_one(q)] *)
Definition find_one (name : string) (q : query) : M Handle (option dict) :=
  round_trip (fun d => List.find (matches q) (coll d name)).

(** [_db.list_collection_names()] *)
Definition list_collection_names (d : Database) : outcome (list string) :=
  match fault d with
  | Some msg => Raise (Exception msg)
  | None => Ok (map fst (map_to_list (colls d)))
  end.

(** The document as the store keeps it: [doc] under the identifier [oid]
    in its [_id] field. *)
Definition stored (oid : N) (doc : dict) : dict :=
  ("_id", VOid oid) :: dict_pop "_id" doc.

(** The store after it accepted [doc] into collection [name] under the
    next identifier. *)
Definition insert_one (name : string) (doc : dict) (d : Database) : Database :=
  {| db_name := db_name d;
     fault := fault d;
     colls := <[ name := coll d name ++ [stored (next_oid d) doc] ]> (colls d);
     next_oid := (next_oid d + 1)%N |}.

(** Modelled from the spec: [create_document] of [database.py], which is
    not under [src/].  Section 4.1, [insert(collectionName, document) ->
    assignedId]: stores the document in the named collection and returns
    a newly assigned unique identifier; on connectivity failure it fails
    with a [StoreUnavailable] error. *)
Definition create_document (name : string) (doc : dict) : M Handle string := fun db =>
  match db with
  | None => (Raise (Exception "StoreUnavailable"), db)
  | Some d =>
      match fault d with
      | Some msg => (Raise (Exception msg), db)
      | None => (Ok (str_oid (next_oid d)), Some (insert_one name doc d))
      end
  end.

(** Modelled from the spec: [get_documents] of [database.py], which is
    not under [src/].  Section 4.1, [findAll(collectionName)]: every
    document of the named collection, in the store's order; on
    connectivity failure it fails with a [StoreUnavailable] error. *)
Definition get_documents (name : string) : M Handle (list dict) := fun db =>
  match db with
  | None => (Raise (Exception "StoreUnavailable"), db)
  | Some d =>
      match fault d with
      | Some msg => (Raise (Exception msg), db)
      | None => (Ok (coll d name), db)
      end
  end.

(* ===================================================================== *)
(** * The models of [schemas.py] and the request bodies of [main.py] *)
(* ===================================================================== *)

Definition VStrs (l : list string) : value := VList (List.map VStr l).
Definition VDicts (l : list dict) : value := VList (List.map VDict l).

(** [class Chapter(BaseModel)] *)
Module Chapter.
Record t : Type := mk {
  slug : string;
  title : string;
  summary : string;
  objectives : list string;
  sections : list dict
}.

(** [Chapter(slug=..., ...)]: an omitted [objectives] or [sections] is
    built by [default_factory=list]. *)
Definition new (slug title summary : string)
    (objectives : option (list string)) (sections : option (list dict)) : t :=
  mk slug title summary (default [] objectives) (default [] sections).

Definition model_dump (c : t) : dict :=
  [ ("slug", VStr (slug c));
    ("title", VStr (title c));
    ("summary", VStr (summary c));
    ("objectives", VStrs (objectives c));
    ("sections", VDicts (sections c)) ].
End Chapter.

(** [class QuizQuestion(BaseModel)] *)
Module QuizQuestion.
Record t : Type := mk {
  chapter_slug : string;
  question : string;
  options : list string;
  correct_index : Z;
  explanation : string;
  difficulty : string
}.

(** [QuizQuestion(chapter_slug=..., ...)]: [options] has [min_items=2],
    [correct_index] has [ge=0], an omitted [difficulty] is ["OSN-N"];
    a violated constraint raises the validation error. *)
Definition new (chapter_slug question : string) (options : list string)
    (correct_index : Z) (explanation : string) (difficulty : option string)
    : outcome t :=
  if (Z.of_nat (length options) <? 2) || (correct_index <? 0)
  then Raise (Exception "validation error for QuizQuestion")
  else Ok (mk chapter_slug question options correct_index explanation
              (default "OSN-N" difficulty)).

Definition model_dump (q : t) : dict :=
  [ ("chapter_slug", VStr (chapter_slug q));
    ("question", VStr (question q));
    ("options", VStrs (options q));
    ("correct_index", VInt (correct_index q));
    ("explanation", VStr (explanation q));
    ("difficulty", VStr (difficulty q)) ].
End QuizQuestion.

(** [class ChapterIn(BaseModel)], the body of [POST /chapters] *)
Module ChapterIn.
Record t : Type := mk {
  slug : string;
  title : string;
  summary : string;
  objectives : list string;
  sections : list dict
}.

(** The body as the client sent it: [None] is a field left out, which
    takes the declared default [[]]. *)
Definition new (slug title summary : string)
    (objectives : option (list string)) (sections : option (list dict)) : t :=
  mk slug title summary (default [] objectives) (default [] sections).

Definition model_dump (c : t) : dict :=
  [ ("slug", VStr (slug c));
    ("title", VStr (title c));
    ("summary", VStr (summary c));
    ("objectives", VStrs (objectives c));
    ("sections", VDicts (sections c)) ].
End ChapterIn.

(** [class QuizIn(BaseModel)], the body of [POST /quiz] *)
Module QuizIn.
Record t : Type := mk {
  chapter_slug : string;
  question : string;
  options : list string;
  correct_index : Z;
  explanation : string;
  difficulty : option string  (* Optional[str] *)
}.

(** The body as the client sent it.  [difficulty]: [None] is the field
    left out (default ["OSN-N"]), [Some None] an explicit [null]. *)
Definition new (chapter_slug question : string) (options : list string)
    (correct_index : Z) (explanation : string)
    (difficulty : option (option string)) : t :=
  mk chapter_slug question options correct_index explanation
     (default (Some "OSN-N") difficulty).

Definition model_dump (q : t) : dict :=
  [ ("chapter_slug", VStr (chapter_slug q));
    ("question", VStr (question q));
    ("options", VStrs (options q));
    ("correct_index", VInt (correct_index q));
    ("explanation", VStr (explanation q));
    ("difficulty", match difficulty q with Some s => VStr s | None => VNone end) ].
End QuizIn.

(* ===================================================================== *)
(** * The handlers of [main.py] *)
(* ===================================================================== *)

(** Python truth of a list or dict and of an optional document. *)
Definition truthy {A} (l : list A) : bool :=
  match l with [] => false | _ :: _ => true end.

Definition truthy_doc (doc : option dict) : bool :=
  match doc with Some d => truthy d | None => false end.

(** [serialize(doc)] on a document. *)
Definition serialize (doc : dict) : dict :=
  if negb (truthy doc) then doc
  else
    match dict_get "_id" doc with
    | Some oid => dict_set "id" (VStr (str oid)) (dict_pop "_id" doc)
    | None => doc
    end.

(** [serialize(doc)] where [doc] may be [None]. *)
Definition serialize_opt (doc : option dict) : option dict :=
  match doc with
  | Some d => Some (serialize d)
  | None => None
  end.

Definition seed_chapter : Chapter.t :=
  Chapter.new
    "cell-structure"
    "Struktur dan Fungsi Sel"
    "Ikhtisar mandiri tentang struktur dasar sel prokariot dan eukariot, membran, organel, dan aliran energi."
    (Some [ "Membedakan sel prokariot dan eukariot";
            "Menjelaskan fungsi organel utama";
            "Mengaitkan struktur membran dengan transport" ])
    (Some [ [ ("heading", VStr "Gambaran Umum Sel");
              ("body", VStr "Sel adalah unit dasar kehidupan.") ];
            [ ("heading", VStr "Organel Utama");
              ("body", VStr "Nukleus, mitokondria, ribosom, retikulum endoplasma, dan lain-lain.") ] ]).

Definition sample_questions : outcome (list QuizQuestion.t) :=
  q1 ← QuizQuestion.new
         "cell-structure"
         "Komponen apakah yang paling berperan langsung dalam fosforilasi oksidatif pada sel eukariot?"
         [ "Ribosom"; "Mitokondria membran dalam"; "Aparatus Golgi"; "Peroksisom" ]
         1
         "Rantai transpor elektron dan ATP sintase terletak pada membran dalam mitokondria."
         None;
  q2 ← QuizQuestion.new
         "cell-structure"
         "Pada model mosaik fluida, fungsi utama kolesterol dalam membran adalah..."
         [ "Meningkatkan permeabilitas air";
           "Menstabilkan fluiditas pada rentang suhu";
           "Mengaktifkan pompa ion";
           "Mengikat glikoprotein" ]
         1
         "Kolesterol membantu menjaga fluiditas membran tetap stabil terhadap perubahan suhu."
         None;
  q3 ← QuizQuestion.new
         "cell-structure"
         "Manakah mekanisme transport yang memerlukan energi langsung dari ATP?"
         [ "Difusi sederhana"; "Osmosis"; "Difusi terfasilitasi"; "Transpor aktif primer" ]
         3
         "Transpor aktif primer menggunakan energi ATP untuk memompa molekul melawan gradien."
         None;
  mret [q1; q2; q3].

(** [POST /seed] *)
Definition seed_data : M Handle dict :=
  try_except
    (existing ← (b ← db_truthy; if b : bool then find "chapter" [] 1 else mret []);
     if truthy existing
     then mret [("status", VStr "ok"); ("message", VStr "Already seeded")]
     else
       _ ← create_document "chapter" (Chapter.model_dump seed_chapter);
       qs ← lift sample_questions;
       _ ← for_each qs (fun q =>
             _ ← create_document "quizquestion" (QuizQuestion.model_dump q);
             mret tt);
       mret [("status", VStr "ok"); ("message", VStr "Seeded")])
    except_Exception.

(** [GET /chapters] *)
Definition list_chapters : M Handle (list dict) :=
  try_except
    (docs ← get_documents "chapter";
     mret (List.map serialize docs))
    except_Exception.

(** [GET /chapters/{slug}] *)
Definition get_chapter (slug : string) : M Handle (option dict) :=
  try_except
    (doc ← find_one "chapter" [("slug", slug)];
     if negb (truthy_doc doc)
     then raise (HTTPException 404 "Chapter not found")
     else mret (serialize_opt doc))
    except_HTTPException_then_Exception.

(** [POST /chapters] *)
Definition create_chapter (payload : ChapterIn.t) : M Handle dict :=
  try_except
    (exists_ ← find_one "chapter" [("slug", ChapterIn.slug payload)];
     if truthy_doc exists_
     then raise (HTTPException 400 "Slug already exists")
     else
       _ ← create_document "chapter" (ChapterIn.model_dump payload);
       mret [("status", VStr "ok")])
    except_HTTPException_then_Exception.

(** [GET /chapters/{slug}/quiz]; [limit = None] is the query parameter
    left out, which takes the default [20]. *)
Definition get_quiz_for_chapter (slug : string) (limit : option Z) : M Handle (list dict) :=
  let limit := default 20 limit in
  try_except
    (docs ← find "quizquestion" [("chapter_slug", slug)] limit;
     mret (List.map serialize docs))
    except_Exception.

(** [POST /quiz] *)
Definition create_quiz_item (item : QuizIn.t) : M Handle dict :=
  try_except
    (if (QuizIn.correct_index item <? 0)
        || (QuizIn.correct_index item >=? Z.of_nat (length (QuizIn.options item)))
     then raise (HTTPException 400 "correct_index out of range")
     else
       _ ← create_document "quizquestion" (QuizIn.model_dump item);
       mret [("status", VStr "ok")])
    except_HTTPException_then_Exception.

(** ** [GET /test] *)

Record Response : Type := mkResponse {
  backend : string;
  database : string;
  database_url : option string;
  database_name : option string;
  connection_status : string;
  collections : list string
}.

Definition set_database (v : string) : M Response unit := fun r =>
  (Ok tt, mkResponse (backend r) v (database_url r) (database_name r)
                     (connection_status r) (collections r)).
Definition set_database_url (v : string) : M Response unit := fun r =>
  (Ok tt, mkResponse (backend r) (database r) (Some v) (database_name r)
                     (connection_status r) (collections r)).
Definition set_database_name (v : string) : M Response unit := fun r =>
  (Ok tt, mkResponse (backend r) (database r) (database_url r) (Some v)
                     (connection_status r) (collections r)).
Definition set_connection_status (v : string) : M Response unit := fun r =>
  (Ok tt, mkResponse (backend r) (database r) (database_url r) (database_name r)
                     v (collections r)).
Definition set_collections (v : list string) : M Response unit := fun r =>
  (Ok tt, mkResponse (backend r) (database r) (database_url r) (database_name r)
                     (connection_status r) v).

(** Python truth of [os.getenv(...)]: set and not empty. *)
Definition truthy_env (v : option string) : bool :=
  match v with
  | Some (String _ _) => true
  | _ => false
  end.

(** The body of [test_database] as a computation on the local [response];
    [_db] is the imported handle and [DATABASE_URL] the value of that
    environment variable. *)
Definition test_database_body (_db : Handle) (DATABASE_URL : option string)
    : M Response unit :=
  try_except
    (match _db with
     | Some d =>
         _ ← set_database "✅ Available";
         _ ← set_database_url (if truthy_env DATABASE_URL then "✅ Set" else "❌ Not Set");
         _ ← set_database_name (default "✅ Connected" (db_name d));
         _ ← set_connection_status "Connected";
         try_except
           (collections ← lift (list_collection_names d);
            _ ← set_collections (take 10 collections);
            set_database "✅ Connected & Working")
           (fun e =>
              set_database ("⚠️  Connected but Error: " +:+ str_prefix 50 (str_exn e)))
     | None => set_database "⚠️  Available but not initialized"
     end)
    (fun e => set_database ("❌ Error: " +:+ str_prefix 50 (str_exn e))).

Definition test_database (_db : Handle) (DATABASE_URL : option string)
    : outcome Response :=
  let response :=
    {| backend := "✅ Running";
       database := "❌ Not Available";
       database_url := None;
       database_name := None;
       connection_status := "Not Connected";
       collections := [] |} in
  match test_database_body _db DATABASE_URL response with
  | (Ok _, response) => Ok response
  | (Raise e, _) => Raise e
  end.

(** What the framework answers: a returned value is a 200, an
    [HTTPException] its status, an exception nobody caught a 500. *)
Definition http_status {A} (r : outcome A) : Z :=
  match r with
  | Ok _ => 200
  | Raise (HTTPException c _) => c
  | Raise (Exception _) => 500
  end.

(** The validation of [create_quiz_item], read off a stored or returned
    document. *)
Definition quiz_in_bounds (doc : dict) : bool :=
  match dict_get "correct_index" doc, dict_get "options" doc with
  | Some (VInt i), Some (VList o) => (0 <=? i) && (i <? Z.of_nat (length o))
  | _, _ => false
  end.

(** Some document of the chapter collection carries this slug. *)
Definition has_chapter (d : Database) (slug : string) : Prop :=
  exists doc, In doc (coll d "chapter") /\ dict_get "slug" doc = Some (VStr slug).

(** A store every round trip of which succeeds. *)
Definition working (d : Database) : Prop := fault d = None.

(** An empty store, for the examples. *)
Definition empty_db : Database := mkDatabase (Some "biology") None ∅ 0.

(** The empty store after three questions were posted for the chapter
    slug "cell-structure". *)
Definition three_questions_db : Handle :=
  (create_quiz_item (QuizIn.new "cell-structure" "q3" ["a"; "b"; "c"; "d"] 3 "e" None)
     (create_quiz_item (QuizIn.new "cell-structure" "q2" ["a"; "b"; "c"; "d"] 1 "e" None)
        (create_quiz_item (QuizIn.new "cell-structure" "q1" ["a"; "b"; "c"; "d"] 1 "e" None)
           (Some empty_db)).2).2).2.

(** [GET /] *)
Definition read_root : dict := [("message", VStr "Biology Learning API running")].

(** [len(s)] of a UTF-8 encoded string: its characters are the bytes that
    do not continue another. *)
Fixpoint char_count (s : string) : nat :=
  match s with
  | EmptyString => O
  | String c r => if is_continuation c then char_count r else S (char_count r)
  end.

(** The documents of a collection as the handle shows them; no store, no
    documents. *)
Definition docs_of (db : Handle) (name : string) : list dict :=
  match db with
  | Some d => coll d name
  | None => []
  end.

(** A handle behind which a store answers. *)
Definition usable (db : Handle) : Prop := exists d, db = Some d /\ working d.

(** The answer is a value or an [HTTPException] whose status is one of
    [codes]. *)
Definition http_only {A} (codes : list Z) (r : outcome A) : Prop :=
  match r with
  | Ok _ => True
  | Raise (HTTPException c _) => In c codes
  | Raise (Exception _) => False
  end.

(** Every stored question passes the index check of [create_quiz_item]. *)
Definition quiz_valid (db : Handle) : Prop :=
  Forall (fun doc => quiz_in_bounds doc = true) (docs_of db "quizquestion").

(** No two stored chapters carry the same slug. *)
Definition slugs_unique (db : Handle) : Prop :=
  forall slug, (length (List.filter (field_is "slug" slug) (docs_of db "chapter")) <= 1)%nat.

(* ===================================================================== *)
(** * Properties *)
(* ===================================================================== *)

(** Unfolding one handler down to the store operations. *)
Ltac unfold_handler :=
  unfold try_except, except_HTTPException_then_Exception, except_Exception,
         raise, lift, mbind, M_bind, mret, M_ret.

(** * Dictionaries *)
Section Dict.
Implicit Types (k : string) (v : value) (d : dict).

Lemma dict_get_pop_eq k d : dict_get k (dict_pop k d) = None.
Proof.
  induction d as [|[k' v'] r IH]; [reflexivity|]. simpl.
  destruct (String.eqb k' k) eqn:E; [exact IH|]. simpl. by rewrite E.
Qed.

Lemma dict_get_pop_ne k k' d : k <> k' -> dict_get k' (dict_pop k d) = dict_get k' d.
Proof.
  intros Hne. induction d as [|[k0 v0] r IH]; [reflexivity|]. simpl.
  destruct (String.eqb k0 k) eqn:E.
  - apply String.eqb_eq in E. subst k0.
    destruct (String.eqb k k') eqn:E'; [apply String.eqb_eq in E'; contradiction|exact IH].
  - simpl. by rewrite IH.
Qed.

Lemma dict_get_set_eq k v d : dict_get k (dict_set k v d) = Some v.
Proof.
  induction d as [|[k0 v0] r IH]; simpl.
  - by rewrite String.eqb_refl.
  - destruct (String.eqb k0 k) eqn:E; simpl; by rewrite E.
Qed.

Lemma dict_get_set_ne k k' v d : k <> k' -> dict_get k' (dict_set k v d) = dict_get k' d.
Proof.
  intros Hne. induction d as [|[k0 v0] r IH]; simpl.
  - destruct (String.eqb k k') eqn:E; [apply String.eqb_eq in E; contradiction|reflexivity].
  - destruct (String.eqb k0 k) eqn:E; simpl.
    + apply String.eqb_eq in E. subst k0.
      destruct (String.eqb k k') eqn:E'; [apply String.eqb_eq in E'; contradiction|reflexivity].
    + by rewrite IH.
Qed.

Lemma dict_pop_id k d : dict_get k d = None -> dict_pop k d = d.
Proof.
  induction d as [|[k0 v0] r IH]; [reflexivity|]. simpl.
  destruct (String.eqb k0 k); [discriminate|]. intros H. by rewrite IH.
Qed.

Lemma dict_set_new k v d : dict_get k d = None -> dict_set k v d = d ++ [(k, v)].
Proof.
  induction d as [|[k0 v0] r IH]; [reflexivity|]. simpl.
  destruct (String.eqb k0 k); [discriminate|]. intros H. by rewrite IH.
Qed.
End Dict.

(** * [str] of an identifier *)
Lemma length_hex_digits k n acc :
  String.length (hex_digits k n acc) = (k + String.length acc)%nat.
Proof.
  revert n acc. induction k as [|k IH]; intros n acc; simpl; [reflexivity|].
  rewrite IH. simpl. lia.
Qed.

Lemma length_str_oid n : String.length (str_oid n) = 24%nat.
Proof. unfold str_oid. by rewrite length_hex_digits. Qed.

Lemma str_oid_nonempty n : str_oid n <> "".
Proof. intros H. pose proof (length_str_oid n) as L. rewrite H in L. discriminate L. Qed.

(** * Serialization *)
Lemma serialize_other k doc :
  k <> "id" -> k <> "_id" -> dict_get k (serialize doc) = dict_get k doc.
Proof.
  intros Hid H_id. unfold serialize.
  destruct (negb (truthy doc)); [reflexivity|].
  destruct (dict_get "_id" doc) as [oid|] eqn:E; [|reflexivity].
  rewrite dict_get_set_ne by congruence. by rewrite dict_get_pop_ne by congruence.
Qed.

Lemma serialize_id doc oid :
  dict_get "_id" doc = Some oid ->
  dict_get "id" (serialize doc) = Some (VStr (str oid))
  /\ dict_get "_id" (serialize doc) = None.
Proof.
  intros E. unfold serialize.
  destruct doc as [|kv r]; [discriminate|]. simpl negb. cbv iota.
  rewrite E. split.
  - apply dict_get_set_eq.
  - rewrite dict_get_set_ne by discriminate. apply dict_get_pop_eq.
Qed.

Lemma serialize_stored oid doc :
  dict_get "_id" doc = None -> dict_get "id" doc = None ->
  serialize (stored oid doc) = doc ++ [("id", VStr (str_oid oid))].
Proof.
  intros H_id Hid. unfold serialize, stored. simpl.
  rewrite (dict_pop_id _ _ H_id). rewrite (dict_pop_id _ _ H_id).
  by apply dict_set_new.
Qed.

(** * The store *)
Section Store.
Implicit Types (d : Database) (name : string) (doc : dict).

Lemma coll_insert_one_eq name doc d :
  coll (insert_one name doc d) name = coll d name ++ [stored (next_oid d) doc].
Proof. unfold coll at 1. simpl. by rewrite lookup_insert_eq. Qed.

Lemma coll_insert_one_ne name name' doc d :
  name <> name' -> coll (insert_one name doc d) name' = coll d name'.
Proof. intros H. unfold coll. simpl. by rewrite lookup_insert_ne. Qed.

Lemma find_ok d name q n :
  working d ->
  find name q n (Some d)
  = (Ok (cursor_limit n (List.filter (matches q) (coll d name))), Some d).
Proof. intros W. unfold find, round_trip. by rewrite W. Qed.

Lemma find_one_ok d name q :
  working d ->
  find_one name q (Some d) = (Ok (List.find (matches q) (coll d name)), Some d).
Proof. intros W. unfold find_one, round_trip. by rewrite W. Qed.

Lemma create_document_ok d name doc :
  working d ->
  create_document name doc (Some d)
  = (Ok (str_oid (next_oid d)), Some (insert_one name doc d)).
Proof. intros W. unfold create_document. by rewrite W. Qed.

End Store.


Lemma create_quiz_item_out_of_range item db :
  QuizIn.correct_index item < 0
  \/ Z.of_nat (length (QuizIn.options item)) <= QuizIn.correct_index item ->
  create_quiz_item item db
  = (Raise (HTTPException 400 "correct_index out of range"), db).
Proof.
  intros H. unfold create_quiz_item. unfold_handler.
  replace ((QuizIn.correct_index item <? 0)
           || (QuizIn.correct_index item >=? Z.of_nat (length (QuizIn.options item))))
    with true; [reflexivity|].
  symmetry. apply orb_true_iff. destruct H; [left|right]; lia.
Qed.

Lemma create_quiz_item_in_range item db :
  0 <= QuizIn.correct_index item < Z.of_nat (length (QuizIn.options item)) ->
  create_quiz_item item db
  = try_except (create_document "quizquestion" (QuizIn.model_dump item)
                  ≫= fun _ => mret [("status", VStr "ok")])
               except_HTTPException_then_Exception db.
Proof.
  intros H. unfold create_quiz_item. unfold try_except at 1 2.
  replace ((QuizIn.correct_index item <? 0)
           || (QuizIn.correct_index item >=? Z.of_nat (length (QuizIn.options item))))
    with false; [reflexivity|].
  symmetry. apply orb_false_iff. split; lia.
Qed.

Lemma create_quiz_item_stored item d :
  working d ->
  0 <= QuizIn.correct_index item < Z.of_nat (length (QuizIn.options item)) ->
  create_quiz_item item (Some d)
  = (Ok [("status", VStr "ok")],
     Some (insert_one "quizquestion" (QuizIn.model_dump item) d)).
Proof.
  intros W H. rewrite (create_quiz_item_in_range _ _ H). unfold_handler.
  by rewrite (create_document_ok _ _ _ W).
Qed.

(** C2.  [create_quiz_item] answers 400 exactly when [correct_index] is
    negative or not below the number of options, whatever the store;
    that answer is the [HTTPException] of the check and leaves the store
    as it was, the check coming before any insert.  With the index in
    range and a working store the document is inserted into
    [quizquestion] and [{"status": "ok"}] is returned. *)
Theorem create_quiz_item_validation (item : QuizIn.t) (db : Handle) :
  (http_status (create_quiz_item item db).1 = 400
     <-> QuizIn.correct_index item < 0
         \/ Z.of_nat (length (QuizIn.options item)) <= QuizIn.correct_index item)
  /\ (QuizIn.correct_index item < 0
      \/ Z.of_nat (length (QuizIn.options item)) <= QuizIn.correct_index item ->
      create_quiz_item item db
      = (Raise (HTTPException 400 "correct_index out of range"), db))
  /\ (0 <= QuizIn.correct_index item < Z.of_nat (length (QuizIn.options item)) ->
      forall d, db = Some d -> working d ->
      create_quiz_item item db
      = (Ok [("status", VStr "ok")],
         Some (insert_one "quizquestion" (QuizIn.model_dump item) d))
      /\ coll (insert_one "quizquestion" (QuizIn.model_dump item) d) "quizquestion"
         = coll d "quizquestion" ++ [stored (next_oid d) (QuizIn.model_dump item)]).
Proof.
  split; [|split].
  - split; [|intros H; by rewrite (create_quiz_item_out_of_range _ _ H)].
    intros H.
    destruct (Z_lt_dec (QuizIn.correct_index item) 0) as [?|Hge]; [by left|].
    destruct (Z_le_dec (Z.of_nat (length (QuizIn.options item)))
                       (QuizIn.correct_index item)) as [?|Hlt]; [by right|].
    exfalso. rewrite create_quiz_item_in_range in H by lia.
    revert H. unfold_handler. unfold create_document.
    destruct db as [d|]; [destruct (fault d)|]; simpl; discriminate.
  - apply create_quiz_item_out_of_range.
  - intros H d -> W. split; [by apply create_quiz_item_stored|apply coll_insert_one_eq].
Qed.

(** The validation scenario: options [["a"; "b"]] with index 2 is
    refused, with index 1 it is stored. *)
Lemma create_quiz_item_validation_witness :
  create_quiz_item (QuizIn.new "cell-structure" "q" ["a"; "b"] 2 "e" None) (Some empty_db)
  = (Raise (HTTPException 400 "correct_index out of range"), Some empty_db)
  /\ create_quiz_item (QuizIn.new "cell-structure" "q" ["a"; "b"] 1 "e" None) (Some empty_db)
     = (Ok [("status", VStr "ok")],
        Some (insert_one "quizquestion"
                (QuizIn.model_dump (QuizIn.new "cell-structure" "q" ["a"; "b"] 1 "e" None))
                empty_db)).
Proof.
  split.
  - apply (create_quiz_item_validation
             (QuizIn.new "cell-structure" "q" ["a"; "b"] 2 "e" None) (Some empty_db)).
    right. simpl. lia.
  - apply (create_quiz_item_validation
             (QuizIn.new "cell-structure" "q" ["a"; "b"] 1 "e" None) (Some empty_db));
      [simpl; lia | reflexivity | reflexivity].
Defined.

(** C3.  A body with the single option [["a"]] and [correct_index = 0]
    passes the check of [create_quiz_item]: the handler answers
    [{"status": "ok"}] and the store keeps a document with one option.
    [QuizIn] declares no minimum length, while [QuizQuestion], the schema
    of the same collection, refuses these fields. *)
Theorem create_quiz_item_accepts_one_option :
  let item := QuizIn.new "cell-structure" "q" ["a"] 0 "e" None in
  create_quiz_item item (Some empty_db)
  = (Ok [("status", VStr "ok")],
     Some (insert_one "quizquestion" (QuizIn.model_dump item) empty_db))
  /\ coll (insert_one "quizquestion" (QuizIn.model_dump item) empty_db) "quizquestion"
     = [stored 0 (QuizIn.model_dump item)]
  /\ dict_get "options" (stored 0 (QuizIn.model_dump item)) = Some (VList [VStr "a"])
  /\ QuizQuestion.new "cell-structure" "q" ["a"] 0 "e" None
     = Raise (Exception "validation error for QuizQuestion").
Proof. repeat split; vm_compute; reflexivity. Qed.


(** * Looking a chapter up by slug *)
Lemma field_is_true k s doc : field_is k s doc = true <-> dict_get k doc = Some (VStr s).
Proof.
  unfold field_is. destruct (dict_get k doc) as [[| s' | | | |]|]; try (split; discriminate).
  rewrite String.eqb_eq. split; congruence.
Qed.

Lemma matches_one k s doc : matches [(k, s)] doc = field_is k s doc.
Proof. unfold matches. simpl. apply andb_true_r. Qed.

Lemma field_is_truthy k s doc : field_is k s doc = true -> truthy doc = true.
Proof. destruct doc; [discriminate|reflexivity]. Qed.

Lemma find_slug_none d slug :
  ~ has_chapter d slug ->
  List.find (matches [("slug", slug)]) (coll d "chapter") = None.
Proof.
  intros Hno. destruct (List.find _ _) as [doc|] eqn:E; [|reflexivity].
  exfalso. apply Hno. apply find_some in E as [Hin Hm].
  exists doc. split; [exact Hin|]. apply field_is_true. by rewrite <- matches_one.
Qed.

Lemma find_slug_some d slug :
  has_chapter d slug ->
  exists doc, List.find (matches [("slug", slug)]) (coll d "chapter") = Some doc
              /\ In doc (coll d "chapter")
              /\ dict_get "slug" doc = Some (VStr slug)
              /\ truthy doc = true.
Proof.
  intros (doc0 & Hin0 & Hs0).
  destruct (List.find _ _) as [doc|] eqn:E.
  - exists doc. apply find_some in E as [Hin Hm]. rewrite matches_one in Hm.
    repeat split; [exact Hin| by apply field_is_true | by eapply field_is_truthy].
  - exfalso. pose proof (find_none _ _ E _ Hin0) as Hm.
    rewrite matches_one in Hm. apply field_is_true in Hs0. congruence.
Qed.

Lemma find_app_none {A} (f : A -> bool) l l' :
  List.find f l = None -> List.find f (l ++ l') = List.find f l'.
Proof.
  induction l as [|x r IH]; [reflexivity|]. simpl.
  destruct (f x); [discriminate|exact IH].
Qed.

Lemma get_chapter_found d slug doc :
  working d ->
  List.find (matches [("slug", slug)]) (coll d "chapter") = Some doc ->
  truthy doc = true ->
  get_chapter slug (Some d) = (Ok (Some (serialize doc)), Some d).
Proof.
  intros W E T. unfold get_chapter. unfold_handler.
  rewrite (find_one_ok _ _ _ W), E. simpl. by rewrite T.
Qed.

Lemma get_chapter_missing d slug :
  working d ->
  List.find (matches [("slug", slug)]) (coll d "chapter") = None ->
  get_chapter slug (Some d) = (Raise (HTTPException 404 "Chapter not found"), Some d).
Proof.
  intros W E. unfold get_chapter. unfold_handler.
  by rewrite (find_one_ok _ _ _ W), E.
Qed.

Lemma create_chapter_fresh payload d :
  working d ->
  List.find (matches [("slug", ChapterIn.slug payload)]) (coll d "chapter") = None ->
  create_chapter payload (Some d)
  = (Ok [("status", VStr "ok")],
     Some (insert_one "chapter" (ChapterIn.model_dump payload) d)).
Proof.
  intros W E. unfold create_chapter. unfold_handler.
  rewrite (find_one_ok _ _ _ W), E. cbn [truthy_doc].
  by rewrite (create_document_ok _ _ _ W).
Qed.

Lemma create_chapter_taken payload d doc :
  working d ->
  List.find (matches [("slug", ChapterIn.slug payload)]) (coll d "chapter") = Some doc ->
  truthy doc = true ->
  create_chapter payload (Some d)
  = (Raise (HTTPException 400 "Slug already exists"), Some d).
Proof.
  intros W E T. unfold create_chapter. unfold_handler.
  rewrite (find_one_ok _ _ _ W), E. simpl. by rewrite T.
Qed.

Lemma has_chapter_insert payload d :
  has_chapter (insert_one "chapter" (ChapterIn.model_dump payload) d)
              (ChapterIn.slug payload).
Proof.
  exists (stored (next_oid d) (ChapterIn.model_dump payload)). split.
  - rewrite coll_insert_one_eq. apply in_or_app. right. by left.
  - reflexivity.
Qed.

(** C4.  On a working store [create_chapter] answers 400 "Slug already
    exists" and leaves the store as it was when a chapter with the slug
    exists; otherwise it appends the document to [chapter] and returns
    [{"status": "ok"}], after which every creation with that slug is
    answered by the 400. *)
Theorem create_chapter_conflict (payload : ChapterIn.t) (d : Database) :
  working d ->
  (has_chapter d (ChapterIn.slug payload) ->
   create_chapter payload (Some d)
   = (Raise (HTTPException 400 "Slug already exists"), Some d))
  /\ (~ has_chapter d (ChapterIn.slug payload) ->
      let d' := insert_one "chapter" (ChapterIn.model_dump payload) d in
      create_chapter payload (Some d) = (Ok [("status", VStr "ok")], Some d')
      /\ coll d' "chapter"
         = coll d "chapter" ++ [stored (next_oid d) (ChapterIn.model_dump payload)]
      /\ forall again : ChapterIn.t,
           ChapterIn.slug again = ChapterIn.slug payload ->
           create_chapter again (Some d')
           = (Raise (HTTPException 400 "Slug already exists"), Some d')).
Proof.
  intros W. split.
  - intros H. destruct (find_slug_some _ _ H) as (doc & E & _ & _ & T).
    by apply (create_chapter_taken _ _ doc).
  - intros H d'. repeat split.
    + apply create_chapter_fresh; [exact W | by apply find_slug_none].
    + apply coll_insert_one_eq.
    + intros again Hs.
      destruct (find_slug_some d' (ChapterIn.slug again)) as (doc & E & _ & _ & T).
      { rewrite Hs. apply has_chapter_insert. }
      by apply (create_chapter_taken _ _ doc).
Qed.


(** The uniqueness scenario: slug "x" created twice on the empty store. *)
Lemma create_chapter_conflict_witness :
  create_chapter (ChapterIn.new "x" "T" "S" None None) (Some empty_db)
  = (Ok [("status", VStr "ok")],
     Some (insert_one "chapter"
             (ChapterIn.model_dump (ChapterIn.new "x" "T" "S" None None)) empty_db))
  /\ create_chapter (ChapterIn.new "x" "T" "S" None None)
       (Some (insert_one "chapter"
                (ChapterIn.model_dump (ChapterIn.new "x" "T" "S" None None)) empty_db))
     = (Raise (HTTPException 400 "Slug already exists"),
        Some (insert_one "chapter"
                (ChapterIn.model_dump (ChapterIn.new "x" "T" "S" None None)) empty_db)).
Proof.
  assert (W : working empty_db) by reflexivity.
  assert (F : ~ has_chapter empty_db "x").
  { intros (doc & Hin & _). exact Hin. }
  destruct (create_chapter_conflict (ChapterIn.new "x" "T" "S" None None) empty_db W)
    as [_ Hfresh].
  destruct (Hfresh F) as (Hrun & _ & Hagain).
  split; [exact Hrun | by apply Hagain].
Defined.

(** C6.  On a working store [get_chapter] raises the 404 "Chapter not
    found" exactly when no chapter carries the slug, and the 404 leaves
    the handler as it was raised (the first [except] clause re-raises
    it); when a chapter carries the slug the handler returns such a
    document serialized. *)
Theorem get_chapter_not_found (slug : string) (d : Database) :
  working d ->
  (~ has_chapter d slug ->
   get_chapter slug (Some d)
   = (Raise (HTTPException 404 "Chapter not found"), Some d))
  /\ (has_chapter d slug ->
      exists doc,
        In doc (coll d "chapter")
        /\ dict_get "slug" doc = Some (VStr slug)
        /\ get_chapter slug (Some d) = (Ok (Some (serialize doc)), Some d))
  /\ (http_status (get_chapter slug (Some d)).1 = 404 <-> ~ has_chapter d slug).
Proof.
  intros W.
  assert (Hmiss : ~ has_chapter d slug ->
            get_chapter slug (Some d)
            = (Raise (HTTPException 404 "Chapter not found"), Some d)).
  { intros H. apply get_chapter_missing; [exact W | by apply find_slug_none]. }
  assert (Hhit : has_chapter d slug ->
            exists doc, In doc (coll d "chapter")
              /\ dict_get "slug" doc = Some (VStr slug)
              /\ get_chapter slug (Some d) = (Ok (Some (serialize doc)), Some d)).
  { intros H. destruct (find_slug_some _ _ H) as (doc & E & Hin & Hs & T).
    exists doc. repeat split; [exact Hin | exact Hs | by apply get_chapter_found]. }
  split; [exact Hmiss | split; [exact Hhit|]].
  split.
  - intros Hst Hhas. destruct (Hhit Hhas) as (doc & _ & _ & E).
    rewrite E in Hst. discriminate Hst.
  - intros H. by rewrite (Hmiss H).
Qed.

(** The scenario [GET /chapters/does-not-exist]. *)
Lemma get_chapter_not_found_witness :
  get_chapter "does-not-exist" (Some empty_db)
  = (Raise (HTTPException 404 "Chapter not found"), Some empty_db).
Proof.
  apply (get_chapter_not_found "does-not-exist" empty_db); [reflexivity|].
  intros (doc & Hin & _). exact Hin.
Defined.

(** Without a store the lookup itself fails, which is the 500 of the
    last handler. *)
Lemma get_chapter_no_store slug :
  get_chapter slug None
  = (Raise (HTTPException 500 "'NoneType' object is not subscriptable"), None).
Proof. reflexivity. Qed.

Lemma get_chapter_faulty slug d msg :
  fault d = Some msg ->
  get_chapter slug (Some d) = (Raise (HTTPException 500 msg), Some d).
Proof.
  intros F. unfold get_chapter, find_one, round_trip. unfold_handler.
  by rewrite F.
Qed.

Lemma get_chapter_after_create payload d :
  working d ->
  ~ has_chapter d (ChapterIn.slug payload) ->
  get_chapter (ChapterIn.slug payload)
    (Some (insert_one "chapter" (ChapterIn.model_dump payload) d))
  = (Ok (Some (serialize (stored (next_oid d) (ChapterIn.model_dump payload)))),
     Some (insert_one "chapter" (ChapterIn.model_dump payload) d)).
Proof.
  intros W Hfresh. apply get_chapter_found; [exact W | | reflexivity].
  rewrite coll_insert_one_eq, (find_app_none _ _ _ (find_slug_none _ _ Hfresh)).
  cbn [List.find]. rewrite matches_one.
  replace (field_is _ _ _) with true; [reflexivity|].
  symmetry. by apply field_is_true.
Qed.

(** C5.  A chapter created under a fresh slug on a working store comes
    back from [get_chapter] with the title, summary, objectives and
    sections of the request, and with an [id] that is the 24-digit text
    of the identifier the store assigned, hence not empty; the request
    has no [id]; the stored [_id] is gone from the view and every other
    field of the view is the stored one.  [create_document] is the
    modelled insert of the store adapter. *)
Theorem chapter_round_trip (payload : ChapterIn.t) (d : Database) :
  working d ->
  ~ has_chapter d (ChapterIn.slug payload) ->
  let d' := insert_one "chapter" (ChapterIn.model_dump payload) d in
  let kept := stored (next_oid d) (ChapterIn.model_dump payload) in
  create_chapter payload (Some d) = (Ok [("status", VStr "ok")], Some d')
  /\ exists view,
       get_chapter (ChapterIn.slug payload) (Some d') = (Ok (Some view), Some d')
       /\ view = serialize kept
       /\ dict_get "title" view = Some (VStr (ChapterIn.title payload))
       /\ dict_get "summary" view = Some (VStr (ChapterIn.summary payload))
       /\ dict_get "objectives" view = Some (VStrs (ChapterIn.objectives payload))
       /\ dict_get "sections" view = Some (VDicts (ChapterIn.sections payload))
       /\ dict_get "id" view = Some (VStr (str_oid (next_oid d)))
       /\ str_oid (next_oid d) <> ""
       /\ dict_get "id" (ChapterIn.model_dump payload) = None
       /\ dict_get "_id" kept = Some (VOid (next_oid d))
       /\ dict_get "_id" view = None
       /\ (forall k, k <> "id" -> k <> "_id" -> dict_get k view = dict_get k kept)
       /\ view = ChapterIn.model_dump payload ++ [("id", VStr (str_oid (next_oid d)))].
Proof.
  intros W Hfresh d' kept. split.
  - apply create_chapter_fresh; [exact W | by apply find_slug_none].
  - exists (serialize kept).
    assert (Hid : dict_get "_id" kept = Some (VOid (next_oid d))) by reflexivity.
    destruct (serialize_id _ _ Hid) as [Hnew Hgone].
    split; [by apply get_chapter_after_create|].
    split; [reflexivity|].
    do 4 (split; [rewrite serialize_other by discriminate; reflexivity|]).
    split; [exact Hnew|].
    split; [apply str_oid_nonempty|].
    split; [reflexivity|].
    split; [exact Hid|].
    split; [exact Hgone|].
    split; [intros k ? ?; by apply serialize_other|].
    by apply serialize_stored.
Qed.

(** A chapter "x" created on the empty store and fetched again. *)
Lemma chapter_round_trip_witness :
  exists view,
    get_chapter "x"
      (Some (insert_one "chapter"
               (ChapterIn.model_dump (ChapterIn.new "x" "T" "S" (Some ["o"]) None))
               empty_db))
    = (Ok (Some view),
       Some (insert_one "chapter"
               (ChapterIn.model_dump (ChapterIn.new "x" "T" "S" (Some ["o"]) None))
               empty_db))
    /\ dict_get "title" view = Some (VStr "T")
    /\ dict_get "id" view = Some (VStr "000000000000000000000000").
Proof.
  assert (W : working empty_db) by reflexivity.
  assert (F : ~ has_chapter empty_db "x").
  { intros (doc & Hin & _). exact Hin. }
  destruct (chapter_round_trip (ChapterIn.new "x" "T" "S" (Some ["o"]) None) empty_db W F)
    as (_ & view & Hget & _ & Ht & _ & _ & _ & Hid & _).
  exists view. repeat split; [exact Hget | exact Ht | exact Hid].
Defined.


(** C8.  Defaults at creation, on a working store: a chapter request
    without [objectives] (without [sections]) is stored, and returned by
    [get_chapter], with the empty list for that field; a quiz request
    without [difficulty] is stored with ["OSN-N"]. *)
Theorem creation_defaults
    (d : Database) (slug title summary : string)
    (objectives : option (list string)) (sections : option (list dict))
    (chapter_slug question : string) (options : list string) (correct_index : Z)
    (explanation : string) :
  working d ->
  ~ has_chapter d slug ->
  0 <= correct_index < Z.of_nat (length options) ->
  (let payload := ChapterIn.new slug title summary objectives sections in
   let d' := insert_one "chapter" (ChapterIn.model_dump payload) d in
   exists kept view,
     create_chapter payload (Some d) = (Ok [("status", VStr "ok")], Some d')
     /\ coll d' "chapter" = coll d "chapter" ++ [kept]
     /\ get_chapter slug (Some d') = (Ok (Some view), Some d')
     /\ (objectives = None ->
         dict_get "objectives" kept = Some (VList [])
         /\ dict_get "objectives" view = Some (VList []))
     /\ (sections = None ->
         dict_get "sections" kept = Some (VList [])
         /\ dict_get "sections" view = Some (VList [])))
  /\ (let item := QuizIn.new chapter_slug question options correct_index explanation None in
      let d' := insert_one "quizquestion" (QuizIn.model_dump item) d in
      exists kept,
        create_quiz_item item (Some d) = (Ok [("status", VStr "ok")], Some d')
        /\ coll d' "quizquestion" = coll d "quizquestion" ++ [kept]
        /\ dict_get "difficulty" kept = Some (VStr "OSN-N")).
Proof.
  intros W Hfresh Hci. split.
  - intros payload d'.
    exists (stored (next_oid d) (ChapterIn.model_dump payload)),
           (serialize (stored (next_oid d) (ChapterIn.model_dump payload))).
    split; [apply create_chapter_fresh; [exact W | by apply find_slug_none]|].
    split; [apply coll_insert_one_eq|].
    split; [by apply (get_chapter_after_create payload d)|].
    split; intros ->; (split; [|rewrite serialize_other by discriminate]); reflexivity.
  - intros item d'. exists (stored (next_oid d) (QuizIn.model_dump item)).
    repeat split; [by apply create_quiz_item_stored | apply coll_insert_one_eq].
Qed.

(** A chapter without objectives and sections, a question without
    difficulty, on the empty store. *)
Lemma creation_defaults_witness :
  (exists view,
     get_chapter "x"
       (Some (insert_one "chapter"
                (ChapterIn.model_dump (ChapterIn.new "x" "T" "S" None None)) empty_db))
     = (Ok (Some view),
        Some (insert_one "chapter"
                (ChapterIn.model_dump (ChapterIn.new "x" "T" "S" None None)) empty_db))
     /\ dict_get "objectives" view = Some (VList [])
     /\ dict_get "sections" view = Some (VList []))
  /\ exists kept,
       coll (insert_one "quizquestion"
               (QuizIn.model_dump (QuizIn.new "x" "q" ["a"; "b"] 1 "e" None)) empty_db)
            "quizquestion" = [kept]
       /\ dict_get "difficulty" kept = Some (VStr "OSN-N").
Proof.
  assert (W : working empty_db) by reflexivity.
  assert (F : ~ has_chapter empty_db "x").
  { intros (doc & Hin & _). exact Hin. }
  assert (B : 0 <= 1 < Z.of_nat (length ["a"; "b"])) by (simpl; lia).
  destruct (creation_defaults empty_db "x" "T" "S" None None "x" "q" ["a"; "b"] 1 "e" W F B)
    as [(k1 & view & _ & _ & Hget & Ho & Hs) (k2 & _ & Hc & Hd)].
  split.
  - exists view. split; [exact Hget|]. split; [apply (Ho eq_refl) | apply (Hs eq_refl)].
  - exists k2. split; [exact Hc | exact Hd].
Defined.

(** * The quiz of a chapter *)

Lemma cursor_limit_sublist n docs :
  forall doc, In doc (cursor_limit n docs) -> In doc docs.
Proof.
  intros doc. unfold cursor_limit. destruct (n =? 0); [tauto|].
  intros H. apply (proj2 (list_elem_of_In _ _)) in H.
  apply list_elem_of_In. eapply subseteq_take, H.
Qed.

Lemma cursor_limit_length n docs :
  n <> 0 -> Z.of_nat (length (cursor_limit n docs)) <= Z.abs n.
Proof.
  intros Hn. unfold cursor_limit.
  destruct (n =? 0) eqn:E; [apply Z.eqb_eq in E; contradiction|].
  rewrite length_take. lia.
Qed.

Lemma get_quiz_for_chapter_ok d slug limit :
  working d ->
  get_quiz_for_chapter slug limit (Some d)
  = (Ok (List.map serialize
           (cursor_limit (default 20 limit)
              (List.filter (matches [("chapter_slug", slug)]) (coll d "quizquestion")))),
     Some d).
Proof.
  intros W. unfold get_quiz_for_chapter. unfold_handler.
  by rewrite (find_ok _ _ _ _ W).
Qed.

(** C7, amended.  On a working store [get_quiz_for_chapter] returns the
    serialized form of documents of [quizquestion] whose [chapter_slug]
    is the given slug, and nothing else decides the answer: no chapter is
    looked up, and a slug without questions gives the empty list.  A
    positive [limit] (20 when left out) bounds their number; a negative
    [limit] bounds it by [-limit]; [limit = 0] returns every matching
    document. *)
Theorem get_quiz_for_chapter_limit (slug : string) (limit : option Z) (d : Database) :
  working d ->
  exists docs,
    get_quiz_for_chapter slug limit (Some d) = (Ok (List.map serialize docs), Some d)
    /\ (forall doc, In doc docs ->
          In doc (coll d "quizquestion")
          /\ dict_get "chapter_slug" doc = Some (VStr slug)
          /\ dict_get "chapter_slug" (serialize doc) = Some (VStr slug))
    /\ (0 < default 20 limit ->
          Z.of_nat (length (List.map serialize docs)) <= default 20 limit)
    /\ (default 20 limit < 0 ->
          Z.of_nat (length (List.map serialize docs)) <= - default 20 limit)
    /\ (default 20 limit = 0 ->
          docs = List.filter (matches [("chapter_slug", slug)]) (coll d "quizquestion"))
    /\ ((forall doc, In doc (coll d "quizquestion") ->
           dict_get "chapter_slug" doc <> Some (VStr slug)) ->
          docs = []).
Proof.
  intros W.
  set (hits := List.filter (matches [("chapter_slug", slug)]) (coll d "quizquestion")).
  exists (cursor_limit (default 20 limit) hits).
  split; [by apply get_quiz_for_chapter_ok|].
  split.
  { intros doc Hin. apply cursor_limit_sublist in Hin.
    apply filter_In in Hin as [Hin Hm]. rewrite matches_one in Hm.
    apply field_is_true in Hm. repeat split; [exact Hin | exact Hm |].
    by rewrite serialize_other by discriminate. }
  split.
  { intros Hpos. rewrite length_map.
    pose proof (cursor_limit_length (default 20 limit) hits). lia. }
  split.
  { intros Hneg. rewrite length_map.
    pose proof (cursor_limit_length (default 20 limit) hits). lia. }
  split.
  { intros H0. unfold cursor_limit. by rewrite H0. }
  intros Hnone.
  assert (E : hits = []).
  { destruct hits as [|doc r] eqn:Eh; [reflexivity|]. exfalso.
    assert (Hin : In doc hits) by (rewrite Eh; by left).
    apply filter_In in Hin as [Hin Hm]. rewrite matches_one in Hm.
    apply field_is_true in Hm. by apply (Hnone doc Hin). }
  rewrite E. unfold cursor_limit. destruct (_ =? 0); [reflexivity|]. by rewrite take_nil.
Qed.


(** Three stored questions asked with [limit = 2]. *)
Lemma get_quiz_for_chapter_limit_witness :
  exists docs,
    get_quiz_for_chapter "cell-structure" (Some 2) three_questions_db
    = (Ok (List.map serialize docs), three_questions_db)
    /\ Z.of_nat (length (List.map serialize docs)) <= 2.
Proof.
  assert (E : exists d, three_questions_db = Some d /\ working d).
  { vm_compute. eexists. split; reflexivity. }
  destruct E as (d & -> & W).
  destruct (get_quiz_for_chapter_limit "cell-structure" (Some 2) d W)
    as (docs & Hrun & _ & Hpos & _).
  exists docs. split; [exact Hrun|]. apply Hpos. simpl. lia.
Defined.

(** C7 as stated fails: with three questions stored for "cell-structure",
    the quiz asked with [limit = 0] has three items, which is more than
    the limit. *)
Lemma get_quiz_for_chapter_limit_zero :
  ~ (forall (slug : string) (limit : option Z) (d : Database) (views : list dict),
       working d ->
       (get_quiz_for_chapter slug limit (Some d)).1 = Ok views ->
       Z.of_nat (length views) <= default 20 limit).
Proof.
  intros claim.
  assert (E : exists d views,
             three_questions_db = Some d /\ working d
             /\ (get_quiz_for_chapter "cell-structure" (Some 0) (Some d)).1 = Ok views
             /\ length views = 3%nat).
  { vm_compute. do 2 eexists. repeat split. }
  destruct E as (d & views & _ & W & Hrun & Hlen).
  pose proof (claim "cell-structure" (Some 0) d views W Hrun) as H.
  rewrite Hlen in H. simpl in H. lia.
Qed.

(** The report in each of the three states of the handle. *)
Lemma test_database_no_handle DATABASE_URL :
  test_database None DATABASE_URL
  = Ok (mkResponse "✅ Running" "⚠️  Available but not initialized" None None
                   "Not Connected" []).
Proof. reflexivity. Qed.

Lemma test_database_listing_fails d msg DATABASE_URL :
  fault d = Some msg ->
  test_database (Some d) DATABASE_URL
  = Ok (mkResponse "✅ Running"
          ("⚠️  Connected but Error: " +:+ str_prefix 50 msg)
          (Some (if truthy_env DATABASE_URL then "✅ Set" else "❌ Not Set"))
          (Some (default "✅ Connected" (db_name d)))
          "Connected" []).
Proof.
  intros F. unfold test_database, test_database_body, list_collection_names.
  rewrite F. reflexivity.
Qed.

Lemma test_database_listing_works d DATABASE_URL :
  fault d = None ->
  test_database (Some d) DATABASE_URL
  = Ok (mkResponse "✅ Running" "✅ Connected & Working"
          (Some (if truthy_env DATABASE_URL then "✅ Set" else "❌ Not Set"))
          (Some (default "✅ Connected" (db_name d)))
          "Connected" (take 10 (map fst (map_to_list (colls d))))).
Proof.
  intros F. unfold test_database, test_database_body, list_collection_names.
  rewrite F. reflexivity.
Qed.

(** C9.  [test_database] returns its report for every handle and every
    environment: it never raises, so the answer is a 200.  The report
    lists at most ten collections; a missing handle and a store whose
    listing fails show as text in [database]. *)
Theorem test_database_never_fails (_db : Handle) (DATABASE_URL : option string) :
  exists r,
    test_database _db DATABASE_URL = Ok r
    /\ http_status (test_database _db DATABASE_URL) = 200
    /\ (length (collections r) <= 10)%nat
    /\ (_db = None ->
        database r = "⚠️  Available but not initialized" /\ collections r = [])
    /\ (forall d msg, _db = Some d -> fault d = Some msg ->
        database r = "⚠️  Connected but Error: " +:+ str_prefix 50 msg
        /\ connection_status r = "Connected"
        /\ collections r = [])
    /\ (forall d, _db = Some d -> working d ->
        database r = "✅ Connected & Working"
        /\ collections r = take 10 (map fst (map_to_list (colls d)))).
Proof.
  destruct _db as [d|]; [destruct (fault d) as [msg|] eqn:F|].
  - rewrite (test_database_listing_fails _ _ _ F). eexists. split; [reflexivity|].
    split; [reflexivity|]. cbn [collections database connection_status].
    split; [simpl; lia|]. split; [discriminate|].
    split.
    + intros d0 msg0 [= <-] F0. rewrite F in F0. injection F0 as <-. by repeat split.
    + intros d0 [= <-] W. unfold working in W. congruence.
  - rewrite (test_database_listing_works _ _ F). eexists. split; [reflexivity|].
    split; [reflexivity|]. cbn [collections database connection_status].
    split; [rewrite length_take; lia|]. split; [discriminate|].
    split.
    + intros d0 msg0 [= <-] F0. congruence.
    + intros d0 [= <-] W. by split.
  - rewrite test_database_no_handle. eexists. split; [reflexivity|].
    split; [reflexivity|]. cbn [collections database].
    split; [simpl; lia|]. split; [by split|].
    split; intros; discriminate.
Qed.


(** * Seeding *)





(** The truth test of [seed_data] comes first and raises on every handle
    that is not [None]; the last handler turns it into the 500. *)
Lemma seed_data_raises d :
  seed_data (Some d) = (Raise (HTTPException 500 bool_not_implemented), Some d).
Proof. reflexivity. Qed.

Lemma seed_data_no_write db : (seed_data db).2 = db.
Proof. destruct db; reflexivity. Qed.

(** C1, at its failing input.  [seed_data] never seeds: on every handle
    it answers 500 and leaves the store as it was.  With a database
    behind the handle, [if db] of line 39 asks the driver's [Database]
    for a truth value, which raises before any round trip, so neither
    "Seeded" nor "Already seeded" is ever returned; without a handle the
    first insert fails.  [test_database] tests the same handle with
    [is not None]. *)
Theorem seed_data_never_seeds (db : Handle) :
  http_status (seed_data db).1 = 500
  /\ (seed_data db).2 = db
  /\ (forall answer, (seed_data db).1 <> Ok answer)
  /\ (forall d, db = Some d ->
        seed_data db = (Raise (HTTPException 500 bool_not_implemented), db)).
Proof.
  split; [by destruct db|]. split; [apply seed_data_no_write|].
  split; [by destruct db|].
  intros d ->. apply seed_data_raises.
Qed.


(** * Examples *)

Example str_oid_ex : str (VOid 255) = "0000000000000000000000ff".
Proof. reflexivity. Qed.

Example repr_ex :
  repr (VDict [("a", VList [VInt 1; VInt (-2)]); ("b", VStr "x")])
  = "{'a': [1, -2], 'b': 'x'}".
Proof. reflexivity. Qed.

Example str_prefix_ex : str_prefix 2 "héllo" = "hé".
Proof. reflexivity. Qed.

(** [GET /chapters/cell-structure/quiz?limit=1] with three questions
    stored: one item. *)
Example quiz_limit_one_ex :
  exists view,
    (get_quiz_for_chapter "cell-structure" (Some 1) three_questions_db).1 = Ok [view]
    /\ dict_get "correct_index" view = Some (VInt 1).
Proof. vm_compute. eexists. split; reflexivity. Qed.

(** Without a store the seeding fails in the adapter, a 500. *)
Example seed_data_no_store_ex :
  seed_data None = (Raise (HTTPException 500 "StoreUnavailable"), None).
Proof. reflexivity. Qed.

(* ===================================================================== *)
(** * Further properties of the handlers *)
(* ===================================================================== *)

(** * Where a writing handler leaves the store *)

Lemma handle_cases (db : Handle) :
  usable db \/ (~ usable db /\ (db = None \/ exists d msg, db = Some d /\ fault d = Some msg)).
Proof.
  destruct db as [d|].
  - destruct (fault d) as [msg|] eqn:F.
    + right. split; [|right; by exists d, msg].
      intros (d' & [= <-] & W). unfold working in W. congruence.
    + left. by exists d.
  - right. split; [|by left]. intros (d' & [=] & _).
Qed.

Lemma create_chapter_outcome payload db :
  ((exists e, (create_chapter payload db).1 = Raise e) /\ (create_chapter payload db).2 = db)
  \/ exists d,
       db = Some d /\ working d /\ ~ has_chapter d (ChapterIn.slug payload)
       /\ create_chapter payload db
          = (Ok [("status", VStr "ok")],
             Some (insert_one "chapter" (ChapterIn.model_dump payload) d)).
Proof.
  destruct db as [d|]; [|left; split; [eexists|]; reflexivity].
  destruct (fault d) as [msg|] eqn:F.
  { left. unfold create_chapter, find_one, round_trip. unfold_handler. rewrite F.
    split; [eexists|]; reflexivity. }
  destruct (List.find (matches [("slug", ChapterIn.slug payload)]) (coll d "chapter"))
    as [doc|] eqn:E.
  - left. apply find_some in E as E'. destruct E' as [_ Hm]. rewrite matches_one in Hm.
    rewrite (create_chapter_taken _ _ doc F E (field_is_truthy _ _ _ Hm)).
    split; [eexists|]; reflexivity.
  - right. exists d. split; [reflexivity|]. split; [exact F|]. split.
    + intros H. destruct (find_slug_some _ _ H) as (doc & E' & _). congruence.
    + by apply create_chapter_fresh.
Qed.

Lemma create_quiz_item_outcome item db :
  ((exists e, (create_quiz_item item db).1 = Raise e) /\ (create_quiz_item item db).2 = db)
  \/ exists d,
       db = Some d /\ working d
       /\ 0 <= QuizIn.correct_index item < Z.of_nat (length (QuizIn.options item))
       /\ create_quiz_item item db
          = (Ok [("status", VStr "ok")],
             Some (insert_one "quizquestion" (QuizIn.model_dump item) d)).
Proof.
  destruct (Z_lt_dec (QuizIn.correct_index item) 0) as [Hneg|Hge].
  { left. rewrite create_quiz_item_out_of_range by (by left). split; [eexists|]; reflexivity. }
  destruct (Z_le_dec (Z.of_nat (length (QuizIn.options item))) (QuizIn.correct_index item))
    as [Hbig|Hlt].
  { left. rewrite create_quiz_item_out_of_range by (by right). split; [eexists|]; reflexivity. }
  assert (Hin : 0 <= QuizIn.correct_index item < Z.of_nat (length (QuizIn.options item)))
    by lia.
  destruct db as [d|].
  - destruct (fault d) as [msg|] eqn:F.
    + left. rewrite (create_quiz_item_in_range _ _ Hin). unfold_handler.
      unfold create_document. rewrite F. split; [eexists|]; reflexivity.
    + right. exists d. repeat split; try lia; [exact F|].
      by apply create_quiz_item_stored.
  - left. rewrite (create_quiz_item_in_range _ _ Hin). split; [eexists|]; reflexivity.
Qed.

(** * Serialization *)

Lemma serialize_without_id doc : dict_get "_id" doc = None -> serialize doc = doc.
Proof. intros H. unfold serialize. rewrite H. by destruct (negb (truthy doc)). Qed.

Lemma serialize_hides_id doc : dict_get "_id" (serialize doc) = None.
Proof.
  destruct (dict_get "_id" doc) as [oid|] eqn:E.
  - by destruct (serialize_id _ _ E).
  - by rewrite serialize_without_id.
Qed.

(** X1.  Serializing twice is serializing once: a view has no [_id]
    left to rename. *)
Theorem serialize_idempotent (doc : dict) : serialize (serialize doc) = serialize doc.
Proof. apply serialize_without_id, serialize_hides_id. Qed.

(** * What the reading handlers return and leave *)

Lemma round_trip_state {A} (read : Database -> A) db : (round_trip read db).2 = db.
Proof. unfold round_trip. destruct db as [d|]; [destruct (fault d)|]; reflexivity. Qed.

Lemma get_chapter_cases slug db :
  get_chapter slug db = (Raise (HTTPException 404 "Chapter not found"), db)
  \/ (exists msg, get_chapter slug db = (Raise (HTTPException 500 msg), db))
  \/ exists doc, In doc (docs_of db "chapter")
                 /\ get_chapter slug db = (Ok (Some (serialize doc)), db).
Proof.
  destruct db as [d|]; [|right; left; eexists; reflexivity].
  destruct (fault d) as [msg|] eqn:F.
  { right. left. exists msg. by apply get_chapter_faulty. }
  destruct (List.find (matches [("slug", slug)]) (coll d "chapter")) as [doc|] eqn:E.
  - right. right. exists doc. apply find_some in E as E'. destruct E' as [Hin Hm].
    rewrite matches_one in Hm. split; [exact Hin|].
    apply get_chapter_found; [exact F | exact E | by eapply field_is_truthy].
  - left. by apply get_chapter_missing.
Qed.

Lemma list_chapters_cases db :
  (exists msg, list_chapters db = (Raise (HTTPException 500 msg), db))
  \/ (usable db /\ list_chapters db = (Ok (List.map serialize (docs_of db "chapter")), db)).
Proof.
  destruct db as [d|]; [|left; eexists; reflexivity].
  unfold list_chapters, get_documents. unfold_handler.
  destruct (fault d) as [msg|] eqn:F.
  - left. by exists msg.
  - right. split; [by exists d | reflexivity].
Qed.

Lemma get_quiz_for_chapter_cases slug limit db :
  (exists msg, get_quiz_for_chapter slug limit db = (Raise (HTTPException 500 msg), db))
  \/ (usable db
      /\ get_quiz_for_chapter slug limit db
         = (Ok (List.map serialize
                  (cursor_limit (default 20 limit)
                     (List.filter (matches [("chapter_slug", slug)])
                                  (docs_of db "quizquestion")))), db)).
Proof.
  destruct db as [d|]; [|left; eexists; reflexivity].
  destruct (fault d) as [msg|] eqn:F.
  - left. exists msg. unfold get_quiz_for_chapter, find, round_trip. unfold_handler.
    by rewrite F.
  - right. split; [by exists d|]. by apply get_quiz_for_chapter_ok.
Qed.

(** X2.  No view returned by [get_chapter], [list_chapters] or
    [get_quiz_for_chapter] has an [_id] field, whatever the store holds. *)
Theorem views_hide_internal_id (slug : string) (limit : option Z) (db : Handle) :
  (forall view, (get_chapter slug db).1 = Ok (Some view) -> dict_get "_id" view = None)
  /\ (forall views view,
        (list_chapters db).1 = Ok views -> In view views -> dict_get "_id" view = None)
  /\ (forall views view,
        (get_quiz_for_chapter slug limit db).1 = Ok views -> In view views ->
        dict_get "_id" view = None).
Proof.
  split; [|split].
  - intros view H.
    destruct (get_chapter_cases slug db) as [E|[[msg E]|(doc & _ & E)]];
      rewrite E in H; try discriminate H.
    injection H as <-. apply serialize_hides_id.
  - intros views view H Hin.
    destruct (list_chapters_cases db) as [[msg E]|[_ E]]; rewrite E in H; [discriminate H|].
    injection H as <-. apply in_map_iff in Hin as (doc & <- & _). apply serialize_hides_id.
  - intros views view H Hin.
    destruct (get_quiz_for_chapter_cases slug limit db) as [[msg E]|[_ E]];
      rewrite E in H; [discriminate H|].
    injection H as <-. apply in_map_iff in Hin as (doc & <- & _). apply serialize_hides_id.
Qed.

(** X3.  The reading handlers leave the store as it was, on success
    and on failure. *)
Theorem reading_leaves_store (slug : string) (limit : option Z) (db : Handle) :
  (get_chapter slug db).2 = db
  /\ (list_chapters db).2 = db
  /\ (get_quiz_for_chapter slug limit db).2 = db.
Proof.
  split; [|split].
  - destruct (get_chapter_cases slug db) as [E|[[msg E]|(doc & _ & E)]]; by rewrite E.
  - destruct (list_chapters_cases db) as [[msg E]|[_ E]]; by rewrite E.
  - destruct (get_quiz_for_chapter_cases slug limit db) as [[msg E]|[_ E]]; by rewrite E.
Qed.

(** * Statuses *)

Lemma seed_data_http db : http_only [500] (seed_data db).1.
Proof.
  unfold seed_data. unfold try_except at 1.
  match goal with |- context [match ?b db with _ => _ end] => destruct (b db) as [[a|e] s] end;
    simpl; auto.
Qed.

Lemma create_chapter_http payload db : http_only [400; 500] (create_chapter payload db).1.
Proof.
  destruct db as [d|]; [|simpl; auto].
  destruct (fault d) as [msg|] eqn:F.
  { unfold create_chapter, find_one, round_trip. unfold_handler. rewrite F. simpl. auto. }
  destruct (create_chapter_outcome payload (Some d)) as [[_ _]|(d' & _ & _ & _ & E)].
  - destruct (List.find (matches [("slug", ChapterIn.slug payload)]) (coll d "chapter"))
      as [doc|] eqn:E.
    + apply find_some in E as E'. destruct E' as [_ Hm]. rewrite matches_one in Hm.
      rewrite (create_chapter_taken _ _ doc F E (field_is_truthy _ _ _ Hm)). simpl. auto.
    + rewrite (create_chapter_fresh _ _ F E). exact I.
  - rewrite E. exact I.
Qed.

Lemma create_quiz_item_http item db : http_only [400; 500] (create_quiz_item item db).1.
Proof.
  destruct (Z_lt_dec (QuizIn.correct_index item) 0) as [Hneg|Hge].
  { rewrite create_quiz_item_out_of_range by (by left). simpl. auto. }
  destruct (Z_le_dec (Z.of_nat (length (QuizIn.options item))) (QuizIn.correct_index item))
    as [Hbig|Hlt].
  { rewrite create_quiz_item_out_of_range by (by right). simpl. auto. }
  rewrite create_quiz_item_in_range by lia. unfold_handler. unfold create_document.
  destruct db as [d|]; [destruct (fault d)|]; simpl; auto.
Qed.

(** X4.  Every handler either returns or raises an [HTTPException]:
    500 for [seed_data], [list_chapters] and [get_quiz_for_chapter], 404
    or 500 for [get_chapter], 400 or 500 for [create_chapter] and
    [create_quiz_item]; no other exception leaves a handler. *)
Theorem handlers_raise_http_only
    (slug : string) (limit : option Z) (payload : ChapterIn.t) (item : QuizIn.t)
    (db : Handle) :
  http_only [500] (seed_data db).1
  /\ http_only [500] (list_chapters db).1
  /\ http_only [404; 500] (get_chapter slug db).1
  /\ http_only [400; 500] (create_chapter payload db).1
  /\ http_only [500] (get_quiz_for_chapter slug limit db).1
  /\ http_only [400; 500] (create_quiz_item item db).1.
Proof.
  split; [apply seed_data_http|].
  split.
  { destruct (list_chapters_cases db) as [[msg E]|[_ E]]; rewrite E; simpl; auto. }
  split.
  { destruct (get_chapter_cases slug db) as [E|[[msg E]|(doc & _ & E)]];
      rewrite E; simpl; auto. }
  split; [apply create_chapter_http|].
  split; [|apply create_quiz_item_http].
  destruct (get_quiz_for_chapter_cases slug limit db) as [[msg E]|[_ E]];
    rewrite E; simpl; auto.
Qed.

(** X5.  Without a working store (no handle, or a store whose round
    trips fail) every handler that reaches the store answers 500, and
    the writing ones leave the handle as it was; for [create_quiz_item]
    that is the case of an index in range. *)
Theorem unusable_store_is_500
    (slug : string) (limit : option Z) (payload : ChapterIn.t) (item : QuizIn.t)
    (db : Handle) :
  ~ usable db ->
  (http_status (seed_data db).1 = 500 /\ (seed_data db).2 = db)
  /\ (http_status (list_chapters db).1 = 500)
  /\ (http_status (get_chapter slug db).1 = 500)
  /\ (http_status (create_chapter payload db).1 = 500 /\ (create_chapter payload db).2 = db)
  /\ (http_status (get_quiz_for_chapter slug limit db).1 = 500)
  /\ (0 <= QuizIn.correct_index item < Z.of_nat (length (QuizIn.options item)) ->
      http_status (create_quiz_item item db).1 = 500 /\ (create_quiz_item item db).2 = db).
Proof.
  intros Hbad.
  destruct (handle_cases db) as [Hok|[_ [->|(d & msg & -> & F)]]]; [contradiction| |].
  - do 5 (split; [try split; reflexivity|]).
    intros Hin. rewrite (create_quiz_item_in_range _ _ Hin). by split.
  - split; [by rewrite seed_data_raises|].
    split.
    { unfold list_chapters, get_documents. unfold_handler. by rewrite F. }
    split; [by rewrite (get_chapter_faulty _ _ _ F)|].
    split.
    { unfold create_chapter, find_one, round_trip. unfold_handler. by rewrite F. }
    split.
    { unfold get_quiz_for_chapter, find, round_trip. unfold_handler. by rewrite F. }
    intros Hin. rewrite (create_quiz_item_in_range _ _ Hin). unfold_handler.
    unfold create_document. by rewrite F.
Qed.

(** With no handle at all. *)
Lemma unusable_store_is_500_witness :
  http_status (get_chapter "x" None).1 = 500
  /\ http_status (create_chapter (ChapterIn.new "x" "T" "S" None None) None).1 = 500.
Proof.
  assert (B : ~ usable None) by (intros (d & [=] & _)).
  destruct (unusable_store_is_500 "x" None (ChapterIn.new "x" "T" "S" None None)
              (QuizIn.new "x" "q" ["a"; "b"] 1 "e" None) None B)
    as (_ & _ & Hg & [Hc _] & _).
  split; [exact Hg | exact Hc].
Defined.

(** * Writing, then reading *)

Lemma serialize_stored_chapter oid payload :
  serialize (stored oid (ChapterIn.model_dump payload))
  = ChapterIn.model_dump payload ++ [("id", VStr (str_oid oid))].
Proof. by apply serialize_stored. Qed.

Lemma serialize_stored_quiz oid item :
  serialize (stored oid (QuizIn.model_dump item))
  = QuizIn.model_dump item ++ [("id", VStr (str_oid oid))].
Proof. by apply serialize_stored. Qed.

Lemma list_chapters_ok d :
  working d ->
  list_chapters (Some d) = (Ok (List.map serialize (coll d "chapter")), Some d).
Proof.
  intros W. unfold list_chapters, get_documents. unfold_handler. by rewrite W.
Qed.

(** X6.  After a chapter is created under a fresh slug, [list_chapters]
    returns the listing it returned before followed by the new chapter:
    the fields of the request and the [id] the store assigned. *)
Theorem list_chapters_after_create (payload : ChapterIn.t) (d : Database) :
  working d ->
  ~ has_chapter d (ChapterIn.slug payload) ->
  exists before,
    list_chapters (Some d) = (Ok before, Some d)
    /\ length before = length (coll d "chapter")
    /\ (list_chapters (create_chapter payload (Some d)).2).1
       = Ok (before
             ++ [ChapterIn.model_dump payload ++ [("id", VStr (str_oid (next_oid d)))]]).
Proof.
  intros W Hfresh. exists (List.map serialize (coll d "chapter")).
  split; [by apply list_chapters_ok|]. split; [apply length_map|].
  rewrite (create_chapter_fresh _ _ W (find_slug_none _ _ Hfresh)). cbn [snd].
  rewrite (list_chapters_ok (insert_one "chapter" (ChapterIn.model_dump payload) d) W).
  cbn [fst]. by rewrite coll_insert_one_eq, map_app, <- serialize_stored_chapter.
Qed.

(** The first chapter of the empty store. *)
Lemma list_chapters_after_create_witness :
  (list_chapters (create_chapter (ChapterIn.new "x" "T" "S" None None) (Some empty_db)).2).1
  = Ok [ChapterIn.model_dump (ChapterIn.new "x" "T" "S" None None)
        ++ [("id", VStr "000000000000000000000000")]].
Proof.
  assert (W : working empty_db) by reflexivity.
  assert (F : ~ has_chapter empty_db "x").
  { intros (doc & Hin & _). exact Hin. }
  destruct (list_chapters_after_create (ChapterIn.new "x" "T" "S" None None) empty_db W F)
    as (before & Hb & _ & Ha).
  injection Hb as <-. exact Ha.
Defined.

Lemma filter_quiz_insert item d :
  List.filter (matches [("chapter_slug", QuizIn.chapter_slug item)])
    (coll (insert_one "quizquestion" (QuizIn.model_dump item) d) "quizquestion")
  = List.filter (matches [("chapter_slug", QuizIn.chapter_slug item)])
      (coll d "quizquestion")
    ++ [stored (next_oid d) (QuizIn.model_dump item)].
Proof.
  rewrite coll_insert_one_eq, List.filter_app. f_equal.
  cbn [List.filter]. rewrite matches_one.
  replace (field_is _ _ _) with true; [reflexivity|].
  symmetry. by apply field_is_true.
Qed.

(** X7.  After a question is created, the quiz of its chapter slug is
    the quiz before followed by the new question (the fields of the
    request and its [id]), provided the limit leaves room: it is 0, or
    larger than the number of questions the slug had. *)
Theorem quiz_after_create (item : QuizIn.t) (limit : option Z) (d : Database) :
  working d ->
  0 <= QuizIn.correct_index item < Z.of_nat (length (QuizIn.options item)) ->
  default 20 limit = 0
  \/ Z.of_nat (length (List.filter (matches [("chapter_slug", QuizIn.chapter_slug item)])
                                   (coll d "quizquestion"))) < default 20 limit ->
  exists before,
    get_quiz_for_chapter (QuizIn.chapter_slug item) limit (Some d) = (Ok before, Some d)
    /\ (get_quiz_for_chapter (QuizIn.chapter_slug item) limit
          (create_quiz_item item (Some d)).2).1
       = Ok (before
             ++ [QuizIn.model_dump item ++ [("id", VStr (str_oid (next_oid d)))]]).
Proof.
  intros W Hin Hroom.
  set (hits := List.filter (matches [("chapter_slug", QuizIn.chapter_slug item)])
                           (coll d "quizquestion")) in *.
  assert (Hall : forall l : list dict,
            default 20 limit = 0 \/ Z.of_nat (length l) <= default 20 limit ->
            cursor_limit (default 20 limit) l = l).
  { intros l [H0|Hle]; unfold cursor_limit.
    - by rewrite H0.
    - destruct (_ =? 0); [reflexivity|]. apply take_ge. lia. }
  exists (List.map serialize hits). split.
  - rewrite (get_quiz_for_chapter_ok _ _ _ W). fold hits.
    rewrite Hall; [reflexivity|]. destruct Hroom; [by left | right; lia].
  - rewrite (create_quiz_item_stored _ _ W Hin). cbn [snd].
    rewrite (get_quiz_for_chapter_ok
               (insert_one "quizquestion" (QuizIn.model_dump item) d) _ _ W).
    cbn [fst]. rewrite filter_quiz_insert. fold hits.
    rewrite Hall.
    + by rewrite map_app, <- serialize_stored_quiz.
    + destruct Hroom; [by left | right]. rewrite length_app. simpl. lia.
Qed.

(** The first question of the empty store, default limit. *)
Lemma quiz_after_create_witness :
  (get_quiz_for_chapter "x" None
     (create_quiz_item (QuizIn.new "x" "q" ["a"; "b"] 1 "e" None) (Some empty_db)).2).1
  = Ok [QuizIn.model_dump (QuizIn.new "x" "q" ["a"; "b"] 1 "e" None)
        ++ [("id", VStr "000000000000000000000000")]].
Proof.
  assert (W : working empty_db) by reflexivity.
  assert (B : 0 <= 1 < Z.of_nat (length ["a"; "b"])) by (simpl; lia).
  assert (R : default 20 None = 0
              \/ Z.of_nat (length (List.filter (matches [("chapter_slug", "x")])
                                               (coll empty_db "quizquestion")))
                 < default 20 None) by (right; vm_compute; reflexivity).
  destruct (quiz_after_create (QuizIn.new "x" "q" ["a"; "b"] 1 "e" None) None empty_db W B R)
    as (before & Hb & Ha).
  injection Hb as <-. exact Ha.
Defined.

(** X8.  [create_quiz_item] looks no chapter up: a question whose
    [chapter_slug] names no chapter is stored and returned by the quiz
    of that slug, while [get_chapter] of the slug still answers 404. *)
Theorem quiz_without_chapter_accepted (item : QuizIn.t) (d : Database) :
  working d ->
  0 <= QuizIn.correct_index item < Z.of_nat (length (QuizIn.options item)) ->
  ~ has_chapter d (QuizIn.chapter_slug item) ->
  (create_quiz_item item (Some d)).1 = Ok [("status", VStr "ok")]
  /\ (get_chapter (QuizIn.chapter_slug item) (create_quiz_item item (Some d)).2).1
     = Raise (HTTPException 404 "Chapter not found")
  /\ exists views,
       (get_quiz_for_chapter (QuizIn.chapter_slug item) (Some 0)
          (create_quiz_item item (Some d)).2).1 = Ok views
       /\ In (QuizIn.model_dump item ++ [("id", VStr (str_oid (next_oid d)))]) views.
Proof.
  intros W Hin Hno. rewrite (create_quiz_item_stored _ _ W Hin). cbn [fst snd].
  split; [reflexivity|]. split.
  - rewrite get_chapter_missing; [reflexivity | exact W |].
    rewrite coll_insert_one_ne by discriminate. by apply find_slug_none.
  - exists (List.map serialize
              (List.filter (matches [("chapter_slug", QuizIn.chapter_slug item)])
                 (coll (insert_one "quizquestion" (QuizIn.model_dump item) d)
                       "quizquestion"))).
    split.
    + by rewrite (get_quiz_for_chapter_ok
                    (insert_one "quizquestion" (QuizIn.model_dump item) d) _ _ W).
    + rewrite filter_quiz_insert, map_app.
      apply in_or_app. right. left. apply serialize_stored_quiz.
Qed.

(** A question for the slug "ghost" on the empty store. *)
Lemma quiz_without_chapter_accepted_witness :
  (get_chapter "ghost"
     (create_quiz_item (QuizIn.new "ghost" "q" ["a"; "b"] 0 "e" None) (Some empty_db)).2).1
  = Raise (HTTPException 404 "Chapter not found").
Proof.
  assert (W : working empty_db) by reflexivity.
  assert (B : 0 <= 0 < Z.of_nat (length ["a"; "b"])) by (simpl; lia).
  assert (F : ~ has_chapter empty_db "ghost").
  { intros (doc & Hin & _). exact Hin. }
  exact (proj1 (proj2 (quiz_without_chapter_accepted
                         (QuizIn.new "ghost" "q" ["a"; "b"] 0 "e" None) empty_db W B F))).
Defined.

(** * Invariants of the writing handlers *)

Lemma quiz_in_bounds_stored_in oid item :
  quiz_in_bounds (stored oid (QuizIn.model_dump item))
  = (0 <=? QuizIn.correct_index item)
    && (QuizIn.correct_index item <? Z.of_nat (length (QuizIn.options item))).
Proof.
  unfold quiz_in_bounds.
  cbn [stored QuizIn.model_dump dict_pop dict_get String.eqb Ascii.eqb Bool.eqb].
  unfold VStrs. by rewrite length_map.
Qed.

(** X9.  If every stored question has its [correct_index] within its
    options, that still holds after [create_quiz_item], [create_chapter]
    or [seed_data], whatever they were given and however they ended. *)
Theorem quiz_bounds_kept (payload : ChapterIn.t) (item : QuizIn.t) (db : Handle) :
  quiz_valid db ->
  quiz_valid (create_quiz_item item db).2
  /\ quiz_valid (create_chapter payload db).2
  /\ quiz_valid (seed_data db).2.
Proof.
  intros Hv. split; [|split].
  - destruct (create_quiz_item_outcome item db) as [[_ ->]|(d & -> & W & Hin & ->)];
      [exact Hv|].
    unfold quiz_valid, docs_of in *. cbn [snd]. rewrite coll_insert_one_eq.
    apply Forall_app. split; [exact Hv|]. constructor; [|constructor].
    rewrite quiz_in_bounds_stored_in. apply andb_true_iff.
    split; [apply Z.leb_le | apply Z.ltb_lt]; lia.
  - destruct (create_chapter_outcome payload db) as [[_ ->]|(d & -> & W & _ & ->)];
      [exact Hv|].
    unfold quiz_valid, docs_of in *. cbn [snd].
    by rewrite coll_insert_one_ne by discriminate.
  - by rewrite seed_data_no_write.
Qed.

(** One question posted to the empty store, then an attempt to seed. *)
Lemma quiz_bounds_kept_witness :
  quiz_valid (create_quiz_item (QuizIn.new "x" "q" ["a"; "b"] 1 "e" None) (Some empty_db)).2
  /\ quiz_valid
       (seed_data
          (create_quiz_item (QuizIn.new "x" "q" ["a"; "b"] 1 "e" None) (Some empty_db)).2).2.
Proof.
  assert (V : quiz_valid (Some empty_db)) by constructor.
  pose proof (quiz_bounds_kept (ChapterIn.new "x" "T" "S" None None)
                (QuizIn.new "x" "q" ["a"; "b"] 1 "e" None) (Some empty_db) V) as (Hq & _ & _).
  split; [exact Hq|].
  exact (proj2 (proj2 (quiz_bounds_kept (ChapterIn.new "x" "T" "S" None None)
                         (QuizIn.new "x" "q" ["a"; "b"] 1 "e" None) _ Hq))).
Defined.

Lemma filter_find_none {A} (f : A -> bool) l : List.find f l = None -> List.filter f l = [].
Proof.
  induction l as [|x r IH]; [reflexivity|]. simpl.
  destruct (f x); [discriminate|exact IH].
Qed.

Lemma field_is_slug_stored oid payload slug :
  field_is "slug" slug (stored oid (ChapterIn.model_dump payload))
  = String.eqb (ChapterIn.slug payload) slug.
Proof. reflexivity. Qed.

(** X10.  If no two stored chapters share a slug, that still holds
    after [create_chapter], [create_quiz_item] or [seed_data]. *)
Theorem slugs_stay_unique (payload : ChapterIn.t) (item : QuizIn.t) (db : Handle) :
  slugs_unique db ->
  slugs_unique (create_chapter payload db).2
  /\ slugs_unique (create_quiz_item item db).2
  /\ slugs_unique (seed_data db).2.
Proof.
  intros Hu. split; [|split].
  - destruct (create_chapter_outcome payload db) as [[_ ->]|(d & -> & W & Hfresh & ->)];
      [exact Hu|].
    intros slug. unfold docs_of. cbn [snd].
    rewrite coll_insert_one_eq, List.filter_app, length_app. cbn [List.filter].
    rewrite field_is_slug_stored.
    destruct (String.eqb (ChapterIn.slug payload) slug) eqn:E.
    + apply String.eqb_eq in E. subst slug.
      pose proof (find_slug_none _ _ Hfresh) as Hnone.
      apply filter_find_none in Hnone.
      assert (Hext : List.filter (field_is "slug" (ChapterIn.slug payload)) (coll d "chapter")
                     = List.filter (matches [("slug", ChapterIn.slug payload)])
                                   (coll d "chapter")).
      { apply filter_ext. intros doc. by rewrite matches_one. }
      rewrite Hext, Hnone. simpl. lia.
    + specialize (Hu slug). unfold docs_of in Hu. simpl. lia.
  - destruct (create_quiz_item_outcome item db) as [[_ ->]|(d & -> & W & _ & ->)];
      [exact Hu|].
    intros slug. unfold docs_of. cbn [snd].
    rewrite coll_insert_one_ne by discriminate. apply (Hu slug).
  - by rewrite seed_data_no_write.
Qed.

(** The same chapter sent twice to the empty store. *)
Lemma slugs_stay_unique_witness :
  slugs_unique
    (create_chapter (ChapterIn.new "x" "T" "S" None None)
       (create_chapter (ChapterIn.new "x" "T" "S" None None) (Some empty_db)).2).2.
Proof.
  assert (U : slugs_unique (Some empty_db)) by (intros slug; apply Nat.le_0_l).
  apply (slugs_stay_unique (ChapterIn.new "x" "T" "S" None None)
           (QuizIn.new "x" "q" ["a"; "b"] 1 "e" None)).
  apply (slugs_stay_unique (ChapterIn.new "x" "T" "S" None None)
           (QuizIn.new "x" "q" ["a"; "b"] 1 "e" None)).
  exact U.
Defined.

(** X11.  The writing handlers only append: in every collection the
    documents held before are a prefix of those held after. *)
Theorem writing_only_appends
    (payload : ChapterIn.t) (item : QuizIn.t) (db : Handle) (name : string) :
  docs_of db name `prefix_of` docs_of (create_chapter payload db).2 name
  /\ docs_of db name `prefix_of` docs_of (create_quiz_item item db).2 name
  /\ docs_of db name `prefix_of` docs_of (seed_data db).2 name.
Proof.
  assert (Hone : forall coll_name doc d,
            coll d name `prefix_of` coll (insert_one coll_name doc d) name).
  { intros coll_name doc d. destruct (decide (coll_name = name)) as [->|Hne].
    - rewrite coll_insert_one_eq. by apply prefix_app_r.
    - by rewrite coll_insert_one_ne. }
  split; [|split].
  - destruct (create_chapter_outcome payload db) as [[_ ->]|(d & -> & _ & _ & ->)];
      [reflexivity | apply Hone].
  - destruct (create_quiz_item_outcome item db) as [[_ ->]|(d & -> & _ & _ & ->)];
      [reflexivity | apply Hone].
  - by rewrite seed_data_no_write.
Qed.

(** X12.  Creating a chapter changes the quiz of no slug, and creating
    a question changes neither [get_chapter] of any slug nor
    [list_chapters]. *)
Theorem writes_are_framed
    (payload : ChapterIn.t) (item : QuizIn.t) (slug : string) (limit : option Z)
    (db : Handle) :
  (get_quiz_for_chapter slug limit (create_chapter payload db).2).1
  = (get_quiz_for_chapter slug limit db).1
  /\ (get_chapter slug (create_quiz_item item db).2).1 = (get_chapter slug db).1
  /\ (list_chapters (create_quiz_item item db).2).1 = (list_chapters db).1.
Proof.
  split; [|split].
  - destruct (create_chapter_outcome payload db) as [[_ ->]|(d & -> & W & _ & ->)];
      [reflexivity|]. cbn [snd].
    rewrite (get_quiz_for_chapter_ok (insert_one "chapter" (ChapterIn.model_dump payload) d)
               _ _ W),
            (get_quiz_for_chapter_ok d _ _ W).
    by rewrite coll_insert_one_ne by discriminate.
  - destruct (create_quiz_item_outcome item db) as [[_ ->]|(d & -> & W & _ & ->)];
      [reflexivity|]. cbn [snd].
    unfold get_chapter. unfold_handler.
    rewrite (find_one_ok (insert_one "quizquestion" (QuizIn.model_dump item) d) _ _ W),
            (find_one_ok d _ _ W).
    rewrite coll_insert_one_ne by discriminate.
    by destruct (List.find _ _) as [[|kv r]|].
  - destruct (create_quiz_item_outcome item db) as [[_ ->]|(d & -> & W & _ & ->)];
      [reflexivity|]. cbn [snd].
    rewrite (list_chapters_ok (insert_one "quizquestion" (QuizIn.model_dump item) d) W),
            (list_chapters_ok d W).
    by rewrite coll_insert_one_ne by discriminate.
Qed.

(** X17.  A creation that returns has added exactly one document to
    its collection; a creation that raises has left the handle as it
    was. *)
Theorem creation_writes_one_document
    (payload : ChapterIn.t) (item : QuizIn.t) (db : Handle) :
  (match (create_chapter payload db).1 with
   | Ok _ => length (docs_of (create_chapter payload db).2 "chapter")
             = S (length (docs_of db "chapter"))
   | Raise _ => (create_chapter payload db).2 = db
   end)
  /\ (match (create_quiz_item item db).1 with
      | Ok _ => length (docs_of (create_quiz_item item db).2 "quizquestion")
                = S (length (docs_of db "quizquestion"))
      | Raise _ => (create_quiz_item item db).2 = db
      end).
Proof.
  split.
  - destruct (create_chapter_outcome payload db) as [[[e He] Hs]|(d & -> & _ & _ & ->)].
    + by rewrite He.
    + cbn [fst snd docs_of]. rewrite coll_insert_one_eq, length_app. simpl. lia.
  - destruct (create_quiz_item_outcome item db) as [[[e He] Hs]|(d & -> & _ & _ & ->)].
    + by rewrite He.
    + cbn [fst snd docs_of]. rewrite coll_insert_one_eq, length_app. simpl. lia.
Qed.

(** X16.  On a working store, a limit that is not below the number of
    matching questions returns all of them, in store order; a positive
    limit below that number returns exactly that many, the first ones. *)
Theorem quiz_limit_exact (slug : string) (limit : option Z) (d : Database) :
  working d ->
  exists hits views,
    hits = List.filter (matches [("chapter_slug", slug)]) (coll d "quizquestion")
    /\ get_quiz_for_chapter slug limit (Some d) = (Ok views, Some d)
    /\ (Z.of_nat (length hits) <= default 20 limit -> views = List.map serialize hits)
    /\ (0 < default 20 limit < Z.of_nat (length hits) ->
        Z.of_nat (length views) = default 20 limit
        /\ views = List.map serialize (take (Z.to_nat (default 20 limit)) hits)).
Proof.
  intros W.
  set (hits := List.filter (matches [("chapter_slug", slug)]) (coll d "quizquestion")).
  exists hits, (List.map serialize (cursor_limit (default 20 limit) hits)).
  split; [reflexivity|]. split; [by apply get_quiz_for_chapter_ok|].
  unfold cursor_limit. split.
  - intros Hle. destruct (_ =? 0); [reflexivity|]. rewrite take_ge; [reflexivity|]. lia.
  - intros [Hpos Hlt]. destruct (default 20 limit =? 0) eqn:E; [apply Z.eqb_eq in E; lia|].
    rewrite Z.abs_eq by lia. split; [|reflexivity].
    rewrite length_map, length_take. lia.
Qed.

(** Three stored questions, limit 2. *)
Lemma quiz_limit_exact_witness :
  exists views,
    get_quiz_for_chapter "cell-structure" (Some 2) three_questions_db
    = (Ok views, three_questions_db)
    /\ Z.of_nat (length views) = 2.
Proof.
  assert (E : exists d, three_questions_db = Some d /\ working d
                        /\ length (List.filter (matches [("chapter_slug", "cell-structure")])
                                               (coll d "quizquestion")) = 3%nat).
  { vm_compute. eexists. repeat split. }
  destruct E as (d & -> & W & Hlen).
  destruct (quiz_limit_exact "cell-structure" (Some 2) d W)
    as (hits & views & -> & Hrun & _ & Hcut).
  exists views. split; [exact Hrun|]. apply Hcut. rewrite Hlen. simpl. lia.
Defined.

(** * The status report *)

Lemma str_prefix_is_prefix n s : exists rest, s = str_prefix n s +:+ rest.
Proof.
  revert n. induction s as [|c r IH]; intros n; [by exists ""|]. simpl.
  destruct (is_continuation c).
  - destruct (IH n) as [rest E]. exists rest.
    change (String c r = String c (str_prefix n r +:+ rest)). by rewrite <- E.
  - destruct n as [|n]; [by exists (String c r)|].
    destruct (IH n) as [rest E]. exists rest.
    change (String c r = String c (str_prefix n r +:+ rest)). by rewrite <- E.
Qed.

Lemma char_count_str_prefix n s : (char_count (str_prefix n s) <= n)%nat.
Proof.
  revert n. induction s as [|c r IH]; intros n; simpl; [lia|].
  destruct (is_continuation c) eqn:E.
  - simpl. rewrite E. apply IH.
  - destruct n as [|n]; simpl; [lia|]. rewrite E. specialize (IH n). lia.
Qed.

Lemma str_prefix_short n s : (char_count s <= n)%nat -> str_prefix n s = s.
Proof.
  revert n. induction s as [|c r IH]; intros n; simpl; [reflexivity|].
  destruct (is_continuation c).
  - intros H. by rewrite IH.
  - destruct n as [|n]; [lia|]. intros H. rewrite IH; [reflexivity|lia].
Qed.

(** X14.  When listing the collections fails with message [msg], the
    report's [database] text is the fixed prefix followed by a prefix of
    [msg] of at most 50 characters, the whole of [msg] when it has no
    more than 50. *)
Theorem test_database_error_text (d : Database) (msg : string)
    (DATABASE_URL : option string) :
  fault d = Some msg ->
  exists r shown rest,
    test_database (Some d) DATABASE_URL = Ok r
    /\ database r = "⚠️  Connected but Error: " +:+ shown
    /\ msg = shown +:+ rest
    /\ (char_count shown <= 50)%nat
    /\ ((char_count msg <= 50)%nat -> shown = msg).
Proof.
  intros F. destruct (str_prefix_is_prefix 50 msg) as [rest E].
  eexists. exists (str_prefix 50 msg), rest.
  split; [by apply test_database_listing_fails|].
  split; [reflexivity|]. split; [exact E|].
  split; [apply char_count_str_prefix | apply str_prefix_short].
Qed.

(** A store that answers "timed out". *)
Lemma test_database_error_text_witness :
  exists r,
    test_database (Some (mkDatabase None (Some "timed out") ∅ 0)) None = Ok r
    /\ database r = "⚠️  Connected but Error: timed out".
Proof.
  destruct (test_database_error_text (mkDatabase None (Some "timed out") ∅ 0) "timed out"
              None eq_refl) as (r & shown & rest & Hrun & Hdb & _ & _ & Hshort).
  exists r. split; [exact Hrun|]. rewrite Hdb, Hshort; [reflexivity|]. simpl. lia.
Defined.

(** X15.  In every report [backend] is "Running"; [connection_status]
    is "Connected" exactly when a handle exists (also when the store
    behind it fails) and "Not Connected" otherwise; [database_url] and
    [database_name] are filled exactly when a handle exists, and
    [database_url] reads "Set" exactly when the variable is set and not
    empty. *)
Theorem test_database_connection_fields (_db : Handle) (DATABASE_URL : option string) :
  exists r,
    test_database _db DATABASE_URL = Ok r
    /\ backend r = "✅ Running"
    /\ (connection_status r = "Connected" <-> _db <> None)
    /\ (connection_status r = "Not Connected" <-> _db = None)
    /\ (database_url r = None <-> _db = None)
    /\ (database_url r = Some "✅ Set"
        <-> _db <> None /\ exists v, DATABASE_URL = Some v /\ v <> "")
    /\ (database_name r = None <-> _db = None)
    /\ (forall d, _db = Some d ->
          database_name r = Some (default "✅ Connected" (db_name d))).
Proof.
  assert (Hurl : forall (u : option string),
            Some (if truthy_env u then "✅ Set" else "❌ Not Set") = Some "✅ Set"
            <-> exists v, u = Some v /\ v <> "").
  { intros [[|c v]|]; simpl; split; try discriminate.
    - intros (v & [= <-] & Hne). contradiction.
    - intros _. by eexists.
    - reflexivity.
    - intros (v & [=] & _). }
  destruct _db as [d|].
  - assert (Hrun : exists r,
               test_database (Some d) DATABASE_URL = Ok r
               /\ backend r = "✅ Running"
               /\ connection_status r = "Connected"
               /\ database_url r
                  = Some (if truthy_env DATABASE_URL then "✅ Set" else "❌ Not Set")
               /\ database_name r = Some (default "✅ Connected" (db_name d))).
    { destruct (fault d) as [msg|] eqn:F; eexists;
        (split; [first [by apply test_database_listing_fails
                       | by apply test_database_listing_works]|]);
        by repeat split. }
    destruct Hrun as (r & Hrun & Hb & Hc & Hu & Hn).
    exists r. split; [exact Hrun|]. split; [exact Hb|].
    split; [split; [discriminate | intros _; exact Hc]|].
    split; [split; [rewrite Hc; discriminate | discriminate]|].
    split; [split; [rewrite Hu; discriminate | discriminate]|].
    split.
    { rewrite Hu, Hurl. split; [by split | by intros [_ H]]. }
    split; [split; [rewrite Hn; discriminate | discriminate]|].
    intros d' [= <-]. exact Hn.
  - eexists. split; [reflexivity|]. cbn.
    split; [reflexivity|].
    split; [split; [discriminate | intros H; contradiction]|].
    split; [by split|]. split; [by split|].
    split; [split; [discriminate | intros [H _]; contradiction]|].
    split; [by split|]. intros d [=].
Qed.
